(** * Grid-aware data center simulator: a shallow embedding

  The Python sources [it_load_model.py], [cooling_model.py],
  [grid_monitor.py], [simple_controller.py] and
  [datacenter_optimizer.py] are embedded as Rocq functions, one module per
  Python class, with the attribute and method names of the sources.

  Conventions of the embedding.
  - Python [float] quantities are real numbers ([R]): arithmetic is exact
    and IEEE special values (inf, nan) are outside the model, except for
    [np.mean] of an empty list, whose nan result is kept as [NaN].
  - A [datetime] is a number of whole seconds ([Z]) counted from a
    midnight; [timestep_seconds] is a whole number of seconds.
  - A Python exception is a [Raise] result; mutation is explicit state
    passing, every method returning the updated object.
  - [np.random.uniform(-0.1, 0.1)] is an explicit argument [u], one draw
    per grid update. *)

From Stdlib Require Import Reals Lra Lia ZArith List Bool.
From Stdlib Require Floats.PrimFloat.
Import ListNotations.

(* Decimal literals of floats denote the nearest binary64 value, as in the
   source. *)
Set Warnings "-inexact-float".

Open Scope R_scope.

(** ** Python and NumPy primitives *)

Inductive exn : Type :=
| ZeroDivisionError
| ValueError.

Inductive result (A : Type) : Type :=
| Ok (a : A)
| Raise (e : exn).

Arguments Ok {A} a.
Arguments Raise {A} e.

Notation "x <- e ;; k" :=
(match e with Ok x => k | Raise err => Raise err end)
(at level 61, e at next level, right associativity, only parsing).

(** [dict.get(key, default)] on an optional configuration key. *)
Definition get {A : Type} (v : option A) (default : A) : A :=
match v with Some a => a | None => default end.

(** True division [a / b] of Python numbers. *)
Definition py_div (a b : R) : result R :=
if Req_dec_T b 0 then Raise ZeroDivisionError else Ok (a / b).

(** [a % b] on Python integers. *)
Definition py_mod (a b : Z) : result Z :=
if (b =? 0)%Z then Raise ZeroDivisionError else Ok (a mod b)%Z.

(** [a // b] on Python integers. *)
Definition py_floordiv (a b : Z) : result Z :=
if (b =? 0)%Z then Raise ZeroDivisionError else Ok (a / b)%Z.

(** [int(x)]: truncation toward zero. *)
Definition py_int (x : R) : Z :=
if Rle_dec 0 x then Int_part x else (- Int_part (- x))%Z.

(** Comparisons of floats as Python booleans, for conditions joined by
  [and] and [or]. *)
Definition Rleb (x y : R) : bool := if Rle_dec x y then true else false.
Definition Rltb (x y : R) : bool := if Rlt_dec x y then true else false.
Definition Rgeb (x y : R) : bool := if Rge_dec x y then true else false.

(** [np.clip(x, lo, hi)] is [minimum(maximum(x, lo), hi)]. *)
Definition np_clip (x lo hi : R) : R := Rmin (Rmax x lo) hi.

(** The builtin [sum]: a left fold starting from 0. *)
Definition py_sum (l : list R) : R := fold_left Rplus l 0.

(** A NumPy float that may be nan. *)
Inductive npfloat : Type :=
| Fin (r : R)
| NaN.

(** [np.mean]: nan (with a warning, no exception) on an empty list. *)
Definition np_mean (l : list R) : npfloat :=
match l with
| [] => NaN
| _ => Fin (py_sum l / INR (length l))
end.

(** [np.min] and [np.max]: [ValueError] on an empty list. *)
Definition np_min (l : list R) : result R :=
match l with
| [] => Raise ValueError
| x :: l' => Ok (fold_left Rmin l' x)
end.

Definition np_max (l : list R) : result R :=
match l with
| [] => Raise ValueError
| x :: l' => Ok (fold_left Rmax l' x)
end.

(** [datetime.hour] of a timestamp counted in seconds from a midnight. *)
Definition hour_of (timestamp : Z) : Z := ((timestamp / 3600) mod 24)%Z.

(** ** Configuration dictionaries: every key is optional *)

Module Config.

Record it_load_t : Type := mk_it_load {
  base_capacity_kw : option R;
  flex_capacity_kw : option R;
  num_servers : option R;
  server_idle_power_w : option R;
  server_max_power_w : option R
}.

Record cooling_t : Type := mk_cooling {
  supply_temp_c : option R;
  outdoor_temp_c : option R;
  chiller_cop : option R;
  free_cooling_threshold_c : option R;
  thermal_mass_btu_f : option R;
  target_temp_c : option R;
  fan_pump_overhead : option R
}.

Record grid_t : Type := mk_grid {
  base_price_per_kwh : option R;
  price_multiplier_peak : option R;
  grid_start_time : option Z
}.

Record controller_t : Type := mk_controller {
  workload_adjustment_rate : option R;
  renewable_threshold_high : option R;
  renewable_threshold_low : option R;
  stress_threshold_high : option R
}.

Record t : Type := mk {
  it_load : option it_load_t;
  cooling : option cooling_t;
  grid : option grid_t;
  controller : option controller_t;
  timestep_seconds : option Z;
  start_time : option Z
}.

(** The empty dictionary [{}] used as default for a missing section. *)
Definition empty_it_load : it_load_t := mk_it_load None None None None None.
Definition empty_cooling : cooling_t :=
  mk_cooling None None None None None None None.
Definition empty_grid : grid_t := mk_grid None None None.
Definition empty_controller : controller_t := mk_controller None None None None.

End Config.

(** ** it_load_model.py *)

Module ITLoadModel.

Record t : Type := mk {
  base_capacity_kw : R;
  flex_capacity_kw : R;
  total_capacity_kw : R;
  num_servers : R;
  server_idle_power_w : R;
  server_max_power_w : R;
  base_workload : R;
  flex_workload : R;
  current_power_kw : R;
  current_heat_btu_hr : R
}.

(** The dictionary returned by [get_state]. *)
Record state : Type := mk_state {
  st_base_workload : R;
  st_flex_workload : R;
  st_total_utilization : R;
  st_power_kw : R;
  st_heat_btu_hr : R
}.

Definition init (config : Config.it_load_t) : t :=
  let base_capacity_kw := get (Config.base_capacity_kw config) 500 in
  let flex_capacity_kw := get (Config.flex_capacity_kw config) 500 in
  {| base_capacity_kw := base_capacity_kw;
     flex_capacity_kw := flex_capacity_kw;
     total_capacity_kw := base_capacity_kw + flex_capacity_kw;
     num_servers := get (Config.num_servers config) 1000;
     server_idle_power_w := get (Config.server_idle_power_w config) 100;
     server_max_power_w := get (Config.server_max_power_w config) 300;
     base_workload := 0.7;
     flex_workload := 0.3;
     current_power_kw := 0;
     current_heat_btu_hr := 0 |}.

Definition set_workload (self : t) (base_util flex_util : R) : t :=
  {| base_capacity_kw := base_capacity_kw self;
     flex_capacity_kw := flex_capacity_kw self;
     total_capacity_kw := total_capacity_kw self;
     num_servers := num_servers self;
     server_idle_power_w := server_idle_power_w self;
     server_max_power_w := server_max_power_w self;
     base_workload := np_clip base_util 0 1;
     flex_workload := np_clip flex_util 0 1;
     current_power_kw := current_power_kw self;
     current_heat_btu_hr := current_heat_btu_hr self |}.

Definition compute_power (self : t) : result R :=
  base_weight <- py_div (base_capacity_kw self) (total_capacity_kw self) ;;
  flex_weight <- py_div (flex_capacity_kw self) (total_capacity_kw self) ;;
  let avg_utilization :=
    base_workload self * base_weight + flex_workload self * flex_weight in
  let power_per_server_w :=
    server_idle_power_w self
    + (server_max_power_w self - server_idle_power_w self) * avg_utilization in
  let total_power_w := power_per_server_w * num_servers self in
  let total_power_kw := total_power_w / 1000.0 in
  Ok total_power_kw.

Definition compute_heat (power_kw : R) : R := power_kw * 3412.14.

(** [update(dt)]: [dt] is not used by the source. When [compute_power]
    raises, no attribute has been assigned yet. *)
Definition update (self : t) (dt : Z) : result (t * R) :=
  power <- compute_power self ;;
  let heat := compute_heat power in
  Ok ({| base_capacity_kw := base_capacity_kw self;
         flex_capacity_kw := flex_capacity_kw self;
         total_capacity_kw := total_capacity_kw self;
         num_servers := num_servers self;
         server_idle_power_w := server_idle_power_w self;
         server_max_power_w := server_max_power_w self;
         base_workload := base_workload self;
         flex_workload := flex_workload self;
         current_power_kw := power;
         current_heat_btu_hr := heat |}, heat).

(** On a freshly constructed model the workloads are Python floats and
    the division raises on a zero total capacity. *)
Definition get_state (self : t) : result state :=
  total_utilization <-
    py_div (base_workload self * base_capacity_kw self
            + flex_workload self * flex_capacity_kw self)
           (total_capacity_kw self) ;;
  Ok {| st_base_workload := base_workload self;
        st_flex_workload := flex_workload self;
        st_total_utilization := total_utilization;
        st_power_kw := current_power_kw self;
        st_heat_btu_hr := current_heat_btu_hr self |}.

Definition get_flexible_capacity (self : t) : R * R :=
  let current := flex_workload self * flex_capacity_kw self in
  let maximum := flex_capacity_kw self in
  (current, maximum).

(** The relation between the three capacity attributes that [__init__]
    establishes; no method assigns them afterwards. *)
Definition capacity_consistent (self : t) : Prop :=
  total_capacity_kw self = base_capacity_kw self + flex_capacity_kw self.

End ITLoadModel.

(** ** cooling_model.py *)

Module CoolingModel.

Inductive mode : Type :=
| MODE_FREE
| MODE_HYBRID
| MODE_MECHANICAL.

Record t : Type := mk {
  supply_temp_setpoint : R;
  outdoor_temp : R;
  chiller_cop : R;
  free_cooling_threshold : R;
  thermal_mass : R;
  target_temp : R;
  current_temp : R;
  current_mode : mode;
  current_cooling_power_kw : R;
  current_pue : R;
  fan_pump_overhead : R
}.

(** The dictionary returned by [get_state]. *)
Record state : Type := mk_state {
  st_mode : mode;
  st_cooling_power_kw : R;
  st_pue : R;
  st_current_temp_c : R;
  st_outdoor_temp_c : R;
  st_supply_temp_c : R;
  st_free_cooling_ratio : R
}.

Definition init (config : Config.cooling_t) : t :=
  let target_temp := get (Config.target_temp_c config) 22 in
  {| supply_temp_setpoint := get (Config.supply_temp_c config) 18;
     outdoor_temp := get (Config.outdoor_temp_c config) 20;
     chiller_cop := get (Config.chiller_cop config) 3.5;
     free_cooling_threshold := get (Config.free_cooling_threshold_c config) 15;
     thermal_mass := get (Config.thermal_mass_btu_f config) 50000;
     target_temp := target_temp;
     current_temp := target_temp;
     current_mode := MODE_HYBRID;
     current_cooling_power_kw := 0;
     current_pue := 1.2;
     fan_pump_overhead := get (Config.fan_pump_overhead config) 0.10 |}.

Definition set_outdoor_temp (self : t) (temp_c : R) : t :=
  {| supply_temp_setpoint := supply_temp_setpoint self;
     outdoor_temp := temp_c;
     chiller_cop := chiller_cop self;
     free_cooling_threshold := free_cooling_threshold self;
     thermal_mass := thermal_mass self;
     target_temp := target_temp self;
     current_temp := current_temp self;
     current_mode := current_mode self;
     current_cooling_power_kw := current_cooling_power_kw self;
     current_pue := current_pue self;
     fan_pump_overhead := fan_pump_overhead self |}.

Definition set_supply_temp (self : t) (temp_c : R) : t :=
  {| supply_temp_setpoint := temp_c;
     outdoor_temp := outdoor_temp self;
     chiller_cop := chiller_cop self;
     free_cooling_threshold := free_cooling_threshold self;
     thermal_mass := thermal_mass self;
     target_temp := target_temp self;
     current_temp := current_temp self;
     current_mode := current_mode self;
     current_cooling_power_kw := current_cooling_power_kw self;
     current_pue := current_pue self;
     fan_pump_overhead := fan_pump_overhead self |}.

Definition compute_free_cooling_ratio (self : t) : R :=
  if Rle_dec (outdoor_temp self) (free_cooling_threshold self) then 1.0
  else if Rge_dec (outdoor_temp self) (target_temp self) then 0.0
  else 1.0 - ((outdoor_temp self - free_cooling_threshold self)
              / (target_temp self - free_cooling_threshold self)).

Definition determine_cooling_mode (self : t) : mode :=
  let free_ratio := compute_free_cooling_ratio self in
  if Rge_dec free_ratio 0.95 then MODE_FREE
  else if Rgt_dec free_ratio 0.1 then MODE_HYBRID
  else MODE_MECHANICAL.

(** The divisions by [chiller_cop] are taken in the reals: a zero
    [chiller_cop], for which NumPy yields inf or nan, is outside the model. *)
Definition compute_cooling_power
    (self : t) (heat_load_btu_hr : R) (mode_arg : option mode) : R :=
  let mode :=
    match mode_arg with
    | None => determine_cooling_mode self
    | Some m => m
    end in
  let heat_load_kw := heat_load_btu_hr / 3412.14 in
  match mode with
  | MODE_FREE => heat_load_kw * 0.03
  | MODE_HYBRID =>
      let free_ratio := compute_free_cooling_ratio self in
      let mech_load_kw := heat_load_kw * (1 - free_ratio) in
      let mech_power_kw := mech_load_kw / chiller_cop self in
      let fan_pump_power_kw := heat_load_kw * fan_pump_overhead self in
      mech_power_kw + fan_pump_power_kw
  | MODE_MECHANICAL =>
      let chiller_power_kw := heat_load_kw / chiller_cop self in
      let fan_pump_power_kw := heat_load_kw * fan_pump_overhead self in
      chiller_power_kw + fan_pump_power_kw
  end.

Definition compute_pue (it_power_kw cooling_power_kw : R) : R :=
  if Rle_dec it_power_kw 0 then 1.0
  else
    let other_overhead_kw := it_power_kw * 0.05 in
    let total_power_kw := it_power_kw + cooling_power_kw + other_overhead_kw in
    total_power_kw / it_power_kw.

Definition update_thermal_state (self : t) (heat_load_btu_hr dt : R) : t :=
  let heat_in_btu := heat_load_btu_hr * (dt / 3600.0) in
  let temp_rise :=
    if Rgt_dec (thermal_mass self) 0 then heat_in_btu / thermal_mass self
    else 0 in
  {| supply_temp_setpoint := supply_temp_setpoint self;
     outdoor_temp := outdoor_temp self;
     chiller_cop := chiller_cop self;
     free_cooling_threshold := free_cooling_threshold self;
     thermal_mass := thermal_mass self;
     target_temp := target_temp self;
     current_temp := target_temp self + temp_rise * 0.1;
     current_mode := current_mode self;
     current_cooling_power_kw := current_cooling_power_kw self;
     current_pue := current_pue self;
     fan_pump_overhead := fan_pump_overhead self |}.

Definition set_current_mode (self : t) (m : mode) : t :=
  {| supply_temp_setpoint := supply_temp_setpoint self;
     outdoor_temp := outdoor_temp self;
     chiller_cop := chiller_cop self;
     free_cooling_threshold := free_cooling_threshold self;
     thermal_mass := thermal_mass self;
     target_temp := target_temp self;
     current_temp := current_temp self;
     current_mode := m;
     current_cooling_power_kw := current_cooling_power_kw self;
     current_pue := current_pue self;
     fan_pump_overhead := fan_pump_overhead self |}.

Definition set_current_cooling_power_kw (self : t) (p : R) : t :=
  {| supply_temp_setpoint := supply_temp_setpoint self;
     outdoor_temp := outdoor_temp self;
     chiller_cop := chiller_cop self;
     free_cooling_threshold := free_cooling_threshold self;
     thermal_mass := thermal_mass self;
     target_temp := target_temp self;
     current_temp := current_temp self;
     current_mode := current_mode self;
     current_cooling_power_kw := p;
     current_pue := current_pue self;
     fan_pump_overhead := fan_pump_overhead self |}.

Definition set_current_pue (self : t) (p : R) : t :=
  {| supply_temp_setpoint := supply_temp_setpoint self;
     outdoor_temp := outdoor_temp self;
     chiller_cop := chiller_cop self;
     free_cooling_threshold := free_cooling_threshold self;
     thermal_mass := thermal_mass self;
     target_temp := target_temp self;
     current_temp := current_temp self;
     current_mode := current_mode self;
     current_cooling_power_kw := current_cooling_power_kw self;
     current_pue := p;
     fan_pump_overhead := fan_pump_overhead self |}.

Definition update (self : t) (dt heat_load_btu_hr : R) : t * R :=
  let self1 := set_current_mode self (determine_cooling_mode self) in
  let self2 :=
    set_current_cooling_power_kw self1
      (compute_cooling_power self1 heat_load_btu_hr (Some (current_mode self1))) in
  let self3 := update_thermal_state self2 heat_load_btu_hr dt in
  (self3, current_cooling_power_kw self3).

Definition compute_current_pue (self : t) (it_power_kw : R) : t * R :=
  let self1 :=
    set_current_pue self (compute_pue it_power_kw (current_cooling_power_kw self)) in
  (self1, current_pue self1).

Definition get_state (self : t) : state :=
  {| st_mode := current_mode self;
     st_cooling_power_kw := current_cooling_power_kw self;
     st_pue := current_pue self;
     st_current_temp_c := current_temp self;
     st_outdoor_temp_c := outdoor_temp self;
     st_supply_temp_c := supply_temp_setpoint self;
     st_free_cooling_ratio := compute_free_cooling_ratio self |}.

End CoolingModel.

(** ** grid_monitor.py *)

Module GridSignalMonitor.

(** The dictionary built by [get_current_state]. The key
    [outdoor_temp_c] is absent until the orchestrator adds it. *)
Record state : Type := mk_state {
  timestamp : Z;
  hour : Z;
  renewable_pct : R;
  grid_stress : R;
  price_per_kwh : R;
  carbon_intensity_gco2_kwh : R;
  outdoor_temp_c : option R
}.

Record t : Type := mk {
  base_price : R;
  price_multiplier_peak : R;
  start_time : Z;
  renewable_profile : list R;
  price_profile : list R;
  carbon_profile : list R;
  current_time : Z;
  current_state : option state   (* [None] is the initial [{}] *)
}.

(** [np.arange(24)]. *)
Definition hours : list Z := map Z.of_nat (seq 0 24).

(** [profile[hour]]; [hour] always comes from [datetime.hour], which lies
    in 0..23, inside the 24-entry profiles. *)
Definition at_hour (profile : list R) (h : Z) : R :=
  nth (Z.to_nat h) profile 0.

Definition _generate_renewable_profile : list R :=
  map (fun h : Z =>
         let solar := Rmax 0 (sin ((IZR h - 6) * PI / 12)) in
         let wind_base := 0.4 in
         let wind_variation := 0.2 * sin (IZR h * PI / 12 + PI) in
         let wind := wind_base + wind_variation in
         let renewable := 0.6 * solar + 0.4 * wind in
         np_clip renewable 0 1)
      hours.

Definition _generate_price_profile
    (base_price price_multiplier_peak : R) : list R :=
  map (fun h : Z =>
         if ((16 <=? h) && (h <? 21))%Z then
           base_price * price_multiplier_peak
         else if (((12 <=? h) && (h <? 16)) || ((21 <=? h) && (h <? 23)))%Z then
           base_price * 1.3
         else 1 * base_price)
      hours.

Definition _generate_carbon_profile (renewable_profile : list R) : list R :=
  let base_carbon := 500 in
  let clean_carbon := 50 in
  map (fun r => base_carbon - (base_carbon - clean_carbon) * r)
      renewable_profile.

(** [now] stands for the [datetime.now()] default of [start_time]. *)
Definition init (config : Config.grid_t) (now : Z) : t :=
  let base_price := get (Config.base_price_per_kwh config) 0.12 in
  let price_multiplier_peak := get (Config.price_multiplier_peak config) 2.0 in
  let start_time := get (Config.grid_start_time config) now in
  let renewable_profile := _generate_renewable_profile in
  {| base_price := base_price;
     price_multiplier_peak := price_multiplier_peak;
     start_time := start_time;
     renewable_profile := renewable_profile;
     price_profile := _generate_price_profile base_price price_multiplier_peak;
     carbon_profile := _generate_carbon_profile renewable_profile;
     current_time := start_time;
     current_state := None |}.

Definition get_hour_of_day (self : t) (timestamp : option Z) : Z :=
  hour_of (get timestamp (current_time self)).

(** [u] is the value drawn by [np.random.uniform(-0.1, 0.1)]. *)
Definition compute_stress_level (self : t) (hour : Z) (u : R) : R :=
  let demand_stress :=
    if ((16 <=? hour) && (hour <? 21))%Z then 0.7
    else if (((12 <=? hour) && (hour <? 16))
             || ((21 <=? hour) && (hour <? 23)))%Z then 0.4
    else 0.2 in
  let renewable_factor := 1.0 - at_hour (renewable_profile self) hour in
  let stress := demand_stress * (0.5 + 0.5 * renewable_factor) in
  let stress := stress + u in
  np_clip stress 0 1.

Definition set_current_time (self : t) (time : Z) : t :=
  {| base_price := base_price self;
     price_multiplier_peak := price_multiplier_peak self;
     start_time := start_time self;
     renewable_profile := renewable_profile self;
     price_profile := price_profile self;
     carbon_profile := carbon_profile self;
     current_time := time;
     current_state := current_state self |}.

Definition set_current_state (self : t) (s : state) : t :=
  {| base_price := base_price self;
     price_multiplier_peak := price_multiplier_peak self;
     start_time := start_time self;
     renewable_profile := renewable_profile self;
     price_profile := price_profile self;
     carbon_profile := carbon_profile self;
     current_time := current_time self;
     current_state := Some s |}.

Definition get_current_state
    (self : t) (timestamp : option Z) (u : R) : t * state :=
  let self1 :=
    match timestamp with
    | Some ts => set_current_time self ts
    | None => self
    end in
  let hour := get_hour_of_day self1 None in
  let s :=
    {| timestamp := current_time self1;
       hour := hour;
       renewable_pct := at_hour (renewable_profile self1) hour;
       grid_stress := compute_stress_level self1 hour u;
       price_per_kwh := at_hour (price_profile self1) hour;
       carbon_intensity_gco2_kwh := at_hour (carbon_profile self1) hour;
       outdoor_temp_c := None |} in
  (set_current_state self1 s, s).

Definition update (self : t) (dt : Z) (u : R) : t * state :=
  get_current_state (set_current_time self (current_time self + dt)%Z) None u.

Definition get_renewable_forecast (self : t) (hours_ahead : nat) : list R :=
  let current_hour := get_hour_of_day self None in
  map (fun i : nat =>
         let future_hour := ((current_hour + Z.of_nat i) mod 24)%Z in
         at_hour (renewable_profile self) future_hour)
      (seq 0 hours_ahead).

(** [grid_state['outdoor_temp_c'] = temp]: the assignment the
    orchestrator performs on the dictionary returned by [update]. *)
Definition set_outdoor_temp_c (s : state) (temp : R) : state :=
  {| timestamp := timestamp s;
     hour := hour s;
     renewable_pct := renewable_pct s;
     grid_stress := grid_stress s;
     price_per_kwh := price_per_kwh s;
     carbon_intensity_gco2_kwh := carbon_intensity_gco2_kwh s;
     outdoor_temp_c := Some temp |}.

End GridSignalMonitor.

(** ** simple_controller.py *)

Module SimpleController.

Record t : Type := mk {
  adjustment_rate : R;
  renewable_threshold_high : R;
  renewable_threshold_low : R;
  stress_threshold_high : R;
  target_base_util : R;
  target_flex_util : R
}.

(** The dictionary returned by [get_state]. *)
Record state : Type := mk_state {
  st_target_base_util : R;
  st_target_flex_util : R
}.

(** The dictionary returned by [compute_control], with its nested
    [cooling_params] flattened. *)
Record control : Type := mk_control {
  workload_base : R;
  workload_flex : R;
  supply_temp : R;
  mode : CoolingModel.mode
}.

(** The snapshot dictionary built by
    [DataCenterOptimizer.get_system_state] and received by
    [compute_control]. Its [grid] entry is the monitor's [current_state]. *)
Record system_state : Type := mk_system_state {
  ss_it_load : ITLoadModel.state;
  ss_cooling : CoolingModel.state;
  ss_grid : option GridSignalMonitor.state;
  ss_controller : state;
  ss_time : Z
}.

Definition init (config : Config.controller_t) : t :=
  {| adjustment_rate := get (Config.workload_adjustment_rate config) 0.2;
     renewable_threshold_high := get (Config.renewable_threshold_high config) 0.6;
     renewable_threshold_low := get (Config.renewable_threshold_low config) 0.3;
     stress_threshold_high := get (Config.stress_threshold_high config) 0.7;
     target_base_util := 0.7;
     target_flex_util := 0.3 |}.

Definition compute_control
    (self : t) (system_state : system_state)
    (grid_state : GridSignalMonitor.state) : t * control :=
  let renewable_pct := GridSignalMonitor.renewable_pct grid_state in
  let stress_level := GridSignalMonitor.grid_stress grid_state in
  let outdoor_temp := get (GridSignalMonitor.outdoor_temp_c grid_state) 20 in
  let base_target := 0.7 in
  let current_flex := ITLoadModel.st_flex_workload (ss_it_load system_state) in
  let flex_target :=
    if Rgeb renewable_pct (renewable_threshold_high self)
       && Rltb stress_level 0.5 then
      Rmin 1.0 (current_flex + adjustment_rate self)
    else if Rleb renewable_pct (renewable_threshold_low self)
            || Rgeb stress_level (stress_threshold_high self) then
      Rmax 0.1 (current_flex - adjustment_rate self)
    else current_flex in
  let '(cooling_mode, supply_temp) :=
    if Rlt_dec outdoor_temp 15 then (CoolingModel.MODE_FREE, 20)
    else if Rlt_dec outdoor_temp 25 then (CoolingModel.MODE_HYBRID, 18)
    else (CoolingModel.MODE_MECHANICAL, 16) in
  ({| adjustment_rate := adjustment_rate self;
      renewable_threshold_high := renewable_threshold_high self;
      renewable_threshold_low := renewable_threshold_low self;
      stress_threshold_high := stress_threshold_high self;
      target_base_util := base_target;
      target_flex_util := flex_target |},
   {| workload_base := base_target;
      workload_flex := flex_target;
      supply_temp := supply_temp;
      mode := cooling_mode |}).

Definition get_state (self : t) : state :=
  {| st_target_base_util := target_base_util self;
     st_target_flex_util := target_flex_util self |}.

End SimpleController.

(** ** The flex rule in binary64 arithmetic

    The modules above compute with real numbers. The flex rule of
    [SimpleController.compute_control] is repeated here on binary64 floats,
    the numbers the code computes with, so that a rounding of its sum can
    be evaluated. *)

Module Binary64.

Import PrimFloat.

(** The builtins [min(a, b)] and [max(a, b)]: the first argument unless the
    second is smaller, respectively larger. *)
Definition py_min (a b : float) : float := if ltb b a then b else a.
Definition py_max (a b : float) : float := if ltb a b then b else a.

(** Lines 61-69 of [compute_control], for a controller with the given four
    parameters. *)
Definition flex_target
    (adjustment_rate renewable_threshold_high renewable_threshold_low
     stress_threshold_high : float)
    (current_flex renewable_pct stress_level : float) : float :=
  if leb renewable_threshold_high renewable_pct && ltb stress_level 0.5%float
  then py_min 1.0%float (add current_flex adjustment_rate)
  else if leb renewable_pct renewable_threshold_low
          || leb stress_threshold_high stress_level
  then py_max 0.1%float (sub current_flex adjustment_rate)
  else current_flex.

End Binary64.

(** ** datacenter_optimizer.py *)

Module DataCenterOptimizer.

(** [self.history]: a dictionary of fourteen parallel lists. *)
Record history_t : Type := mk_history {
  h_time : list Z;
  h_it_power_kw : list R;
  h_cooling_power_kw : list R;
  h_total_power_kw : list R;
  h_pue : list R;
  h_base_workload : list R;
  h_flex_workload : list R;
  h_renewable_pct : list R;
  h_grid_stress : list R;
  h_price_per_kwh : list R;
  h_carbon_intensity : list R;
  h_cooling_mode : list CoolingModel.mode;
  h_total_cost : list R;
  h_total_carbon : list R
}.

Definition empty_history : history_t :=
  mk_history [] [] [] [] [] [] [] [] [] [] [] [] [] [].

Record t : Type := mk {
  config : Config.t;
  it_load : ITLoadModel.t;
  cooling : CoolingModel.t;
  grid : GridSignalMonitor.t;
  controller : SimpleController.t;
  timestep : Z;
  current_time : Z;
  history : history_t
}.

(** The dictionary returned by [step]. *)
Record metrics : Type := mk_metrics {
  m_time : Z;
  m_it_power_kw : R;
  m_cooling_power_kw : R;
  m_total_power_kw : R;
  m_pue : R;
  m_cost : R;
  m_carbon_g : R
}.

Record summary_t : Type := mk_summary {
  total_energy_kwh : R;
  total_cost_usd : R;
  total_carbon_kg : R;
  avg_pue : npfloat;
  min_pue : R;
  max_pue : R;
  avg_renewable_pct : npfloat;
  avg_flex_workload : npfloat
}.

(** The dictionary returned by [get_results]. *)
Record results : Type := mk_results {
  r_history : history_t;
  r_summary : summary_t;
  r_config : Config.t
}.

(** [now_grid] and [now] are the two [datetime.now()] defaults, read by
    the grid monitor's constructor and by this one. *)
Definition init (config : Config.t) (now_grid now : Z) : t :=
  {| config := config;
     it_load := ITLoadModel.init (get (Config.it_load config) Config.empty_it_load);
     cooling := CoolingModel.init (get (Config.cooling config) Config.empty_cooling);
     grid := GridSignalMonitor.init (get (Config.grid config) Config.empty_grid) now_grid;
     controller :=
       SimpleController.init (get (Config.controller config) Config.empty_controller);
     timestep := get (Config.timestep_seconds config) 300%Z;
     current_time := get (Config.start_time config) now;
     history := empty_history |}.

Definition get_system_state (self : t) : result SimpleController.system_state :=
  it_load_state <- ITLoadModel.get_state (it_load self) ;;
  Ok {| SimpleController.ss_it_load := it_load_state;
        SimpleController.ss_cooling := CoolingModel.get_state (cooling self);
        SimpleController.ss_grid := GridSignalMonitor.current_state (grid self);
        SimpleController.ss_controller := SimpleController.get_state (controller self);
        SimpleController.ss_time := current_time self |}.

(** Lines 80 of [step]: the grid monitor advances its own clock and
    returns its new state dictionary. *)
Definition observe (u : R) (self : t) : t * GridSignalMonitor.state :=
  let '(grid1, grid_state) := GridSignalMonitor.update (grid self) (timestep self) u in
  ({| config := config self;
      it_load := it_load self;
      cooling := cooling self;
      grid := grid1;
      controller := controller self;
      timestep := timestep self;
      current_time := current_time self;
      history := history self |},
   grid_state).

(** Lines 83-89 of [step]: the outdoor temperature is derived from the
    hour of the orchestrator's own clock, written into the grid state and
    pushed to the cooling model. [grid_state] is the very dictionary held
    by the monitor as [current_state], so the monitor sees the new key. *)
Definition inject_outdoor_temp
    (self : t) (grid_state : GridSignalMonitor.state)
    : t * GridSignalMonitor.state :=
  let hour := hour_of (current_time self) in
  let base_temp := 15 in
  let daily_variation := 10 * sin ((IZR hour - 6) * PI / 12) in
  let outdoor_temp := base_temp + daily_variation in
  let grid_state1 := GridSignalMonitor.set_outdoor_temp_c grid_state outdoor_temp in
  ({| config := config self;
      it_load := it_load self;
      cooling := CoolingModel.set_outdoor_temp (cooling self) outdoor_temp;
      grid := GridSignalMonitor.set_current_state (grid self) grid_state1;
      controller := controller self;
      timestep := timestep self;
      current_time := current_time self;
      history := history self |},
   grid_state1).

(** The fourteen [append] calls of [step]. *)
Definition record_metrics
    (h : history_t) (time : Z) (it_power cooling_power total_power pue : R)
    (base_workload flex_workload : R) (grid_state : GridSignalMonitor.state)
    (cooling_mode : CoolingModel.mode) (cost carbon : R) : history_t :=
  {| h_time := h_time h ++ [time];
     h_it_power_kw := h_it_power_kw h ++ [it_power];
     h_cooling_power_kw := h_cooling_power_kw h ++ [cooling_power];
     h_total_power_kw := h_total_power_kw h ++ [total_power];
     h_pue := h_pue h ++ [pue];
     h_base_workload := h_base_workload h ++ [base_workload];
     h_flex_workload := h_flex_workload h ++ [flex_workload];
     h_renewable_pct :=
       h_renewable_pct h ++ [GridSignalMonitor.renewable_pct grid_state];
     h_grid_stress := h_grid_stress h ++ [GridSignalMonitor.grid_stress grid_state];
     h_price_per_kwh :=
       h_price_per_kwh h ++ [GridSignalMonitor.price_per_kwh grid_state];
     h_carbon_intensity :=
       h_carbon_intensity h
       ++ [GridSignalMonitor.carbon_intensity_gco2_kwh grid_state];
     h_cooling_mode := h_cooling_mode h ++ [cooling_mode];
     h_total_cost := h_total_cost h ++ [cost];
     h_total_carbon := h_total_carbon h ++ [carbon] |}.

(** Lines 97-149 of [step]: the control actions are applied, the models
    advance, and the record of the step is appended. When the IT load
    update raises, the workload and the supply setpoint are already set. *)
Definition apply_control
    (self : t) (grid_state : GridSignalMonitor.state)
    (control : SimpleController.control) : t * result metrics :=
  let it_load1 :=
    ITLoadModel.set_workload (it_load self)
      (SimpleController.workload_base control)
      (SimpleController.workload_flex control) in
  let cooling1 :=
    CoolingModel.set_supply_temp (cooling self)
      (SimpleController.supply_temp control) in
  match ITLoadModel.update it_load1 (timestep self) with
  | Raise e =>
      ({| config := config self;
          it_load := it_load1;
          cooling := cooling1;
          grid := grid self;
          controller := controller self;
          timestep := timestep self;
          current_time := current_time self;
          history := history self |},
       Raise e)
  | Ok (it_load2, heat_load) =>
      let '(cooling2, cooling_power) :=
        CoolingModel.update cooling1 (IZR (timestep self)) heat_load in
      let it_power := ITLoadModel.current_power_kw it_load2 in
      let '(cooling3, pue) := CoolingModel.compute_current_pue cooling2 it_power in
      let total_power := it_power + cooling_power in
      let energy_kwh := total_power * (IZR (timestep self) / 3600.0) in
      let cost := energy_kwh * GridSignalMonitor.price_per_kwh grid_state in
      let carbon :=
        energy_kwh * GridSignalMonitor.carbon_intensity_gco2_kwh grid_state in
      let history1 :=
        record_metrics (history self) (current_time self) it_power cooling_power
          total_power pue (ITLoadModel.base_workload it_load2)
          (ITLoadModel.flex_workload it_load2) grid_state
          (CoolingModel.current_mode cooling3) cost carbon in
      let current_time1 := (current_time self + timestep self)%Z in
      ({| config := config self;
          it_load := it_load2;
          cooling := cooling3;
          grid := grid self;
          controller := controller self;
          timestep := timestep self;
          current_time := current_time1;
          history := history1 |},
       Ok {| m_time := current_time1;
             m_it_power_kw := it_power;
             m_cooling_power_kw := cooling_power;
             m_total_power_kw := total_power;
             m_pue := pue;
             m_cost := cost;
             m_carbon_g := carbon |})
  end.

(** Lines 83-149 of [step]: everything that follows the grid update,
    for the grid state [grid_state] it returned. *)
Definition step_from
    (grid_state : GridSignalMonitor.state) (self : t) : t * result metrics :=
  let '(self1, grid_state1) := inject_outdoor_temp self grid_state in
  match get_system_state self1 with
  | Raise e => (self1, Raise e)
  | Ok system_state =>
      let '(controller1, control) :=
        SimpleController.compute_control (controller self1) system_state
          grid_state1 in
      apply_control
        {| config := config self1;
           it_load := it_load self1;
           cooling := cooling self1;
           grid := grid self1;
           controller := controller1;
           timestep := timestep self1;
           current_time := current_time self1;
           history := history self1 |}
        grid_state1 control
  end.

Definition step (u : R) (self : t) : t * result metrics :=
  let '(self1, grid_state) := observe u self in
  step_from grid_state self1.

Definition get_results (self : t) : result results :=
  let h := history self in
  let total_energy_kwh :=
    py_sum (h_total_power_kw h) * (IZR (timestep self) / 3600.0) in
  let total_cost := py_sum (h_total_cost h) in
  let total_carbon_kg := py_sum (h_total_carbon h) / 1000.0 in
  let avg_pue := np_mean (h_pue h) in
  min_pue <- np_min (h_pue h) ;;
  max_pue <- np_max (h_pue h) ;;
  let summary :=
    {| total_energy_kwh := total_energy_kwh;
       total_cost_usd := total_cost;
       total_carbon_kg := total_carbon_kg;
       avg_pue := avg_pue;
       min_pue := min_pue;
       max_pue := max_pue;
       avg_renewable_pct := np_mean (h_renewable_pct h);
       avg_flex_workload := np_mean (h_flex_workload h) |} in
  Ok {| r_history := h; r_summary := summary; r_config := config self |}.

(** The [for i in range(num_steps)] loop of [run]: [i] is the loop index,
    [n] the number of iterations left, [uniform k] the random draw of
    iteration [k]. The progress line is printed when
    [i % (3600 // self.timestep) == 0]; printing is not modelled, the
    evaluation of its condition is. *)
Fixpoint run_loop (uniform : nat -> R) (i n : nat) (self : t) : t * result unit :=
  match n with
  | O => (self, Ok tt)
  | S n' =>
      match step (uniform i) self with
      | (self1, Raise e) => (self1, Raise e)
      | (self1, Ok _) =>
          match (per_hour <- py_floordiv 3600 (timestep self1) ;;
                 py_mod (Z.of_nat i) per_hour) with
          | Raise e => (self1, Raise e)
          | Ok _ => run_loop uniform (S i) n' self1
          end
      end
  end.

(** [num_steps] as computed at the head of [run]. *)
Definition num_steps (self : t) (duration_hours : R) : result Z :=
  q <- py_div (duration_hours * 3600) (IZR (timestep self)) ;;
  Ok (py_int q).

(** [run(duration_hours)]: the final object together with the returned
    dictionary or the exception raised. [range(num_steps)] is empty for a
    non-positive [num_steps]. *)
Definition run (uniform : nat -> R) (self : t) (duration_hours : R)
    : t * result results :=
  match num_steps self duration_hours with
  | Raise e => (self, Raise e)
  | Ok n =>
      match run_loop uniform 0 (Z.to_nat n) self with
      | (self1, Raise e) => (self1, Raise e)
      | (self1, Ok _) => (self1, get_results self1)
      end
  end.

(** [create_default_config()], its two [datetime.now()] readings being
    [now_grid] and [now]; the default dictionary has no
    [fan_pump_overhead] key. *)
Definition create_default_config (now_grid now : Z) : Config.t :=
  {| Config.it_load :=
       Some (Config.mk_it_load (Some 500) (Some 500) (Some 1000) (Some 100)
                               (Some 300));
     Config.cooling :=
       Some (Config.mk_cooling (Some 18) (Some 20) (Some 3.5) (Some 15)
                               (Some 50000) (Some 22) None);
     Config.grid :=
       Some (Config.mk_grid (Some 0.12) (Some 2.0) (Some now_grid));
     Config.controller :=
       Some (Config.mk_controller (Some 0.2) (Some 0.6) (Some 0.3) (Some 0.7));
     Config.timestep_seconds := Some 300%Z;
     Config.start_time := Some now |}.

(** States of the orchestrator that a run can pass through, whatever the
    grid signals are: starting from [o0], the grid monitor may be in any
    state and each step may see any grid-state dictionary. *)
Inductive reachable (o0 : t) : t -> Prop :=
| reachable_init : reachable o0 o0
| reachable_grid (o : t) (g : GridSignalMonitor.t) :
    reachable o0 o ->
    reachable o0
      {| config := config o;
         it_load := it_load o;
         cooling := cooling o;
         grid := g;
         controller := controller o;
         timestep := timestep o;
         current_time := current_time o;
         history := history o |}
| reachable_step (o : t) (grid_state : GridSignalMonitor.state) :
    reachable o0 o ->
    reachable o0 (fst (step_from grid_state o)).

(** Every series of the history has [n] entries. *)
Definition history_length (h : history_t) (n : nat) : Prop :=
  length (h_time h) = n /\ length (h_it_power_kw h) = n
  /\ length (h_cooling_power_kw h) = n /\ length (h_total_power_kw h) = n
  /\ length (h_pue h) = n /\ length (h_base_workload h) = n
  /\ length (h_flex_workload h) = n /\ length (h_renewable_pct h) = n
  /\ length (h_grid_stress h) = n /\ length (h_price_per_kwh h) = n
  /\ length (h_carbon_intensity h) = n /\ length (h_cooling_mode h) = n
  /\ length (h_total_cost h) = n /\ length (h_total_carbon h) = n.

(** [h'] is [h] with exactly one entry added at the end of every series,
    the earlier entries being those of [h]. *)
Definition appended_one (h h' : history_t) : Prop :=
  (exists x, h_time h' = h_time h ++ [x])
  /\ (exists x, h_it_power_kw h' = h_it_power_kw h ++ [x])
  /\ (exists x, h_cooling_power_kw h' = h_cooling_power_kw h ++ [x])
  /\ (exists x, h_total_power_kw h' = h_total_power_kw h ++ [x])
  /\ (exists x, h_pue h' = h_pue h ++ [x])
  /\ (exists x, h_base_workload h' = h_base_workload h ++ [x])
  /\ (exists x, h_flex_workload h' = h_flex_workload h ++ [x])
  /\ (exists x, h_renewable_pct h' = h_renewable_pct h ++ [x])
  /\ (exists x, h_grid_stress h' = h_grid_stress h ++ [x])
  /\ (exists x, h_price_per_kwh h' = h_price_per_kwh h ++ [x])
  /\ (exists x, h_carbon_intensity h' = h_carbon_intensity h ++ [x])
  /\ (exists x, h_cooling_mode h' = h_cooling_mode h ++ [x])
  /\ (exists x, h_total_cost h' = h_total_cost h ++ [x])
  /\ (exists x, h_total_carbon h' = h_total_carbon h ++ [x]).

(** The synthetic outdoor temperature at hour [h]. *)
Definition diurnal_temp (h : Z) : R := 15 + 10 * sin ((IZR h - 6) * PI / 12).

(** The record at position [i] of the history relates its series the way
    [step] computes them from the IT power and the cooling power, for the
    step size [ts]. *)
Definition row_consistent (ts : Z) (h : history_t) (i : nat) : Prop :=
  nth i (h_total_power_kw h) 0
  = nth i (h_it_power_kw h) 0 + nth i (h_cooling_power_kw h) 0
  /\ nth i (h_pue h) 0
     = CoolingModel.compute_pue (nth i (h_it_power_kw h) 0)
         (nth i (h_cooling_power_kw h) 0)
  /\ nth i (h_total_cost h) 0
     = nth i (h_total_power_kw h) 0 * (IZR ts / 3600)
       * nth i (h_price_per_kwh h) 0
  /\ nth i (h_total_carbon h) 0
     = nth i (h_total_power_kw h) 0 * (IZR ts / 3600)
       * nth i (h_carbon_intensity h) 0
  /\ nth i (h_base_workload h) 0 = 0.7.

End DataCenterOptimizer.

(** * Properties *)

(** ** Proof automation *)

(** Case analysis on the comparisons met in the goal, closing the branches
  that contradict the context. *)
Ltac rcases :=
repeat match goal with
       | |- context [Rle_dec ?a ?b] => destruct (Rle_dec a b); try lra
       | |- context [Rlt_dec ?a ?b] => destruct (Rlt_dec a b); try lra
       | |- context [Rge_dec ?a ?b] => destruct (Rge_dec a b); try lra
       | |- context [Rgt_dec ?a ?b] => destruct (Rgt_dec a b); try lra
       | |- context [Req_dec_T ?a ?b] => destruct (Req_dec_T a b); try lra
       end.

(** ** Cooling model *)

Section Cooling.

Import CoolingModel.

Lemma compute_pue_nonpositive (it_power_kw cooling_power_kw : R) :
  it_power_kw <= 0 -> compute_pue it_power_kw cooling_power_kw = 1.
Proof. intros H. unfold compute_pue. rcases. Qed.

Lemma compute_pue_positive (it_power_kw cooling_power_kw : R) :
  it_power_kw > 0 ->
  compute_pue it_power_kw cooling_power_kw
  = (it_power_kw + cooling_power_kw + 0.05 * it_power_kw) / it_power_kw.
Proof.
  intros H. unfold compute_pue. rcases.
Qed.

Lemma div_self_plus_ge_1 (a b : R) : a > 0 -> b >= 0 -> (a + b) / a >= 1.
Proof.
  intros Ha Hb.
  assert (Hi : 0 < / a) by (apply Rinv_0_lt_compat; lra).
  assert (Hone : a * / a = 1) by (apply Rinv_r; lra).
  unfold Rdiv. nra.
Qed.

(** C4. [compute_pue] returns exactly 1.0 whenever the IT power is not
    positive; for a positive IT power it returns
    [(it + cooling + 0.05 * it) / it], which is at least 1.0 for every
    non-negative cooling power. *)
Theorem compute_pue_spec (it_power_kw cooling_power_kw : R) :
  (it_power_kw <= 0 -> compute_pue it_power_kw cooling_power_kw = 1.0)
  /\ (it_power_kw > 0 ->
      compute_pue it_power_kw cooling_power_kw
      = (it_power_kw + cooling_power_kw + 0.05 * it_power_kw) / it_power_kw
      /\ (cooling_power_kw >= 0 ->
          compute_pue it_power_kw cooling_power_kw >= 1.0)).
Proof.
  split.
  - intros H. rewrite compute_pue_nonpositive by assumption. lra.
  - intros H. split.
    + now apply compute_pue_positive.
    + intros Hc. rewrite compute_pue_positive by assumption.
      replace (it_power_kw + cooling_power_kw + 0.05 * it_power_kw)
        with (it_power_kw + (cooling_power_kw + 0.05 * it_power_kw)) by lra.
      replace 1.0 with 1 by lra.
      apply div_self_plus_ge_1; lra.
Qed.

Lemma compute_pue_spec_witness :
  compute_pue (-3) 40 = 1.0 /\ compute_pue 200 6 >= 1.0.
Proof.
  split.
  - apply (proj1 (compute_pue_spec (-3) 40)). lra.
  - apply (proj2 (compute_pue_spec 200 6)); lra.
Defined.

(** The three branches of [compute_free_cooling_ratio]. *)
Lemma ratio_below_threshold (self : t) :
  outdoor_temp self <= free_cooling_threshold self ->
  compute_free_cooling_ratio self = 1.
Proof. intros H. unfold compute_free_cooling_ratio. rcases. Qed.

Lemma ratio_above_target (self : t) :
  free_cooling_threshold self < outdoor_temp self ->
  outdoor_temp self >= target_temp self ->
  compute_free_cooling_ratio self = 0.
Proof. intros H1 H2. unfold compute_free_cooling_ratio. rcases. Qed.

Lemma ratio_between (self : t) :
  free_cooling_threshold self < outdoor_temp self < target_temp self ->
  compute_free_cooling_ratio self
  = 1 - (outdoor_temp self - free_cooling_threshold self)
        / (target_temp self - free_cooling_threshold self).
Proof. intros H. unfold compute_free_cooling_ratio. rcases. Qed.

(** The interpolated value stays within [0, 1] and decreases with the
    outdoor temperature. *)
Lemma interpolation_bounds (x lo hi : R) :
  lo < x < hi -> 0 <= 1 - (x - lo) / (hi - lo) <= 1.
Proof.
  intros H.
  assert (Hi : 0 < / (hi - lo)) by (apply Rinv_0_lt_compat; lra).
  assert (Hone : (hi - lo) * / (hi - lo) = 1) by (apply Rinv_r; lra).
  unfold Rdiv. nra.
Qed.

Lemma interpolation_antitone (x y lo hi : R) :
  lo < hi -> x <= y ->
  1 - (y - lo) / (hi - lo) <= 1 - (x - lo) / (hi - lo).
Proof.
  intros H Hxy.
  assert (Hi : 0 < / (hi - lo)) by (apply Rinv_0_lt_compat; lra).
  unfold Rdiv. nra.
Qed.

(** The ratio never increases with the outdoor temperature, whatever the
    two thresholds are. *)
Lemma ratio_antitone (self : t) (t1 t2 : R) :
  t1 <= t2 ->
  compute_free_cooling_ratio (set_outdoor_temp self t2)
  <= compute_free_cooling_ratio (set_outdoor_temp self t1).
Proof.
  intros H. unfold compute_free_cooling_ratio; cbn [outdoor_temp set_outdoor_temp
    free_cooling_threshold target_temp].
  set (lo := free_cooling_threshold self). set (hi := target_temp self).
  destruct (Rle_dec t2 lo), (Rle_dec t1 lo); try lra;
    destruct (Rge_dec t2 hi), (Rge_dec t1 hi); try lra.
  - assert (0 <= 1 - (t2 - lo) / (hi - lo) <= 1)
      by (apply interpolation_bounds; lra).
    lra.
  - assert (0 <= 1 - (t1 - lo) / (hi - lo) <= 1)
      by (apply interpolation_bounds; lra).
    lra.
  - assert (1 - (t2 - lo) / (hi - lo) <= 1 - (t1 - lo) / (hi - lo))
      by (apply interpolation_antitone; lra).
    lra.
Qed.

(** C5. The ratio is 1.0 for every outdoor temperature up to the
    free-cooling threshold; with the threshold below the target
    temperature it is 0.0 for every outdoor temperature from the target
    on; strictly between the two it is the linear interpolation
    [1 - (outdoor - threshold) / (target - threshold)]; and it never
    increases with the outdoor temperature. *)
Theorem free_cooling_ratio_spec (self : t) :
  (outdoor_temp self <= free_cooling_threshold self ->
   compute_free_cooling_ratio self = 1.0)
  /\ (free_cooling_threshold self < target_temp self ->
      outdoor_temp self >= target_temp self ->
      compute_free_cooling_ratio self = 0.0)
  /\ (free_cooling_threshold self < outdoor_temp self < target_temp self ->
      compute_free_cooling_ratio self
      = 1 - (outdoor_temp self - free_cooling_threshold self)
            / (target_temp self - free_cooling_threshold self))
  /\ (forall t1 t2 : R,
        t1 <= t2 ->
        compute_free_cooling_ratio (set_outdoor_temp self t2)
        <= compute_free_cooling_ratio (set_outdoor_temp self t1)).
Proof.
  split; [ | split; [ | split ] ].
  - intros H. rewrite ratio_below_threshold by assumption. lra.
  - intros Hcfg H. rewrite ratio_above_target by lra. lra.
  - apply ratio_between.
  - intros t1 t2. apply ratio_antitone.
Qed.

Lemma free_cooling_ratio_spec_witness :
  let self := init Config.empty_cooling in
  compute_free_cooling_ratio (set_outdoor_temp self 5) = 1.0
  /\ compute_free_cooling_ratio (set_outdoor_temp self 30) = 0.0
  /\ compute_free_cooling_ratio (set_outdoor_temp self 18)
     = 1 - (18 - 15) / (22 - 15)
  /\ compute_free_cooling_ratio (set_outdoor_temp self 30)
     <= compute_free_cooling_ratio (set_outdoor_temp self 18).
Proof.
  intros self.
  split; [ | split; [ | split ] ].
  - apply (proj1 (free_cooling_ratio_spec (set_outdoor_temp self 5))).
    cbn. lra.
  - apply (proj1 (proj2 (free_cooling_ratio_spec (set_outdoor_temp self 30))));
      cbn; lra.
  - apply (proj1 (proj2 (proj2
             (free_cooling_ratio_spec (set_outdoor_temp self 18))))).
    cbn. lra.
  - apply (proj2 (proj2 (proj2 (free_cooling_ratio_spec self)))). lra.
Defined.

(** C6. The selected mode is free exactly when the free-cooling ratio is
    at least 0.95, mechanical exactly when it is at most 0.10, and hybrid
    in all other cases. *)
Theorem determine_cooling_mode_spec (self : t) :
  (determine_cooling_mode self = MODE_FREE
   <-> compute_free_cooling_ratio self >= 0.95)
  /\ (determine_cooling_mode self = MODE_MECHANICAL
      <-> compute_free_cooling_ratio self <= 0.10)
  /\ (determine_cooling_mode self = MODE_HYBRID
      <-> ~ compute_free_cooling_ratio self >= 0.95
          /\ ~ compute_free_cooling_ratio self <= 0.10).
Proof.
  unfold determine_cooling_mode.
  set (r := compute_free_cooling_ratio self).
  destruct (Rge_dec r 0.95) as [Hf | Hf];
    [ | destruct (Rgt_dec r 0.1) as [Hh | Hh] ];
    repeat split; intros; try discriminate; try reflexivity; try lra.
Qed.

End Cooling.

(** ** IT load model *)

Section ITLoad.

Import ITLoadModel.

Lemma init_capacity_consistent (config : Config.it_load_t) :
  capacity_consistent (init config).
Proof. reflexivity. Qed.

Lemma set_workload_capacity_consistent (self : t) (b f : R) :
  capacity_consistent self -> capacity_consistent (set_workload self b f).
Proof. intros H. exact H. Qed.

Lemma py_div_nonzero (a b : R) : b <> 0 -> py_div a b = Ok (a / b).
Proof. intros H. unfold py_div. destruct (Req_dec_T b 0); [contradiction | reflexivity]. Qed.

Lemma py_div_zero (a : R) : py_div a 0 = Raise ZeroDivisionError.
Proof. unfold py_div. destruct (Req_dec_T 0 0); [reflexivity | contradiction]. Qed.

(** [compute_power] returns as soon as the total capacity is not zero. *)
Lemma compute_power_nonzero (self : t) :
  total_capacity_kw self <> 0 ->
  compute_power self
  = Ok ((server_idle_power_w self
         + (server_max_power_w self - server_idle_power_w self)
           * (base_workload self * (base_capacity_kw self / total_capacity_kw self)
              + flex_workload self
                * (flex_capacity_kw self / total_capacity_kw self)))
        * num_servers self / 1000.0).
Proof.
  intros H. unfold compute_power. rewrite !py_div_nonzero by assumption.
  reflexivity.
Qed.

Lemma compute_power_zero (self : t) :
  total_capacity_kw self = 0 -> compute_power self = Raise ZeroDivisionError.
Proof.
  intros H. unfold compute_power. rewrite H, py_div_zero. reflexivity.
Qed.

Lemma update_capacity_consistent (self self' : t) (dt : Z) (heat : R) :
  capacity_consistent self -> update self dt = Ok (self', heat) ->
  capacity_consistent self'.
Proof.
  unfold update. intros H. destruct (compute_power self); [ | discriminate ].
  intros E. injection E as <- _. exact H.
Qed.

(** C10. [compute_power] divides by [total_capacity_kw], which is
    [base_capacity_kw + flex_capacity_kw], without a guard: when the two
    capacities sum to a strictly positive value the division cannot fault
    and the power is returned; when both capacities are zero the division
    raises [ZeroDivisionError]. *)
Theorem compute_power_division (self : t) :
  capacity_consistent self ->
  (0 < base_capacity_kw self + flex_capacity_kw self ->
   exists power_kw : R,
     compute_power self = Ok power_kw
     /\ power_kw
        = (server_idle_power_w self
           + (server_max_power_w self - server_idle_power_w self)
             * (base_workload self
                * (base_capacity_kw self
                   / (base_capacity_kw self + flex_capacity_kw self))
                + flex_workload self
                  * (flex_capacity_kw self
                     / (base_capacity_kw self + flex_capacity_kw self))))
          * num_servers self / 1000)
  /\ (base_capacity_kw self = 0 -> flex_capacity_kw self = 0 ->
      compute_power self = Raise ZeroDivisionError).
Proof.
  unfold capacity_consistent. intros Hc. split.
  - intros Hpos. eexists. split.
    + apply compute_power_nonzero. lra.
    + rewrite Hc. f_equal. lra.
  - intros Hb Hf. apply compute_power_zero. lra.
Qed.

Lemma compute_power_division_witness :
  (exists power_kw : R,
      compute_power (init Config.empty_it_load) = Ok power_kw)
  /\ compute_power
       (init (Config.mk_it_load (Some 0) (Some 0) None None None))
     = Raise ZeroDivisionError.
Proof.
  split.
  - destruct (compute_power_division (init Config.empty_it_load)
                (init_capacity_consistent _)) as [H _].
    destruct H as [p [Hp _]]; [ cbn; lra | ].
    exists p. exact Hp.
  - apply (compute_power_division
             (init (Config.mk_it_load (Some 0) (Some 0) None None None))
             (init_capacity_consistent _)); reflexivity.
Defined.

End ITLoad.

(** ** Orchestrator: one step *)

Section Step.

Import DataCenterOptimizer.

(** What [apply_control] leaves untouched, whether it returns or raises. *)
Lemma apply_control_frame
    (o : t) (gs : GridSignalMonitor.state) (c : SimpleController.control) :
  let o' := fst (apply_control o gs c) in
  config o' = config o /\ timestep o' = timestep o /\ grid o' = grid o
  /\ controller o' = controller o
  /\ ITLoadModel.total_capacity_kw (it_load o')
     = ITLoadModel.total_capacity_kw (it_load o)
  /\ ITLoadModel.flex_workload (it_load o')
     = np_clip (SimpleController.workload_flex c) 0 1
  /\ CoolingModel.outdoor_temp (cooling o') = CoolingModel.outdoor_temp (cooling o)
  /\ CoolingModel.free_cooling_threshold (cooling o')
     = CoolingModel.free_cooling_threshold (cooling o)
  /\ CoolingModel.target_temp (cooling o') = CoolingModel.target_temp (cooling o).
Proof.
  unfold apply_control, ITLoadModel.update.
  destruct (ITLoadModel.compute_power _); cbn; tauto.
Qed.

(** With a non-zero total capacity [apply_control] returns, and its
    effects on the clock, the mode and the history are as follows. *)
Lemma apply_control_ok
    (o : t) (gs : GridSignalMonitor.state) (c : SimpleController.control) :
  ITLoadModel.total_capacity_kw (it_load o) <> 0 ->
  let o' := fst (apply_control o gs c) in
  (exists m, snd (apply_control o gs c) = Ok m)
  /\ current_time o' = (current_time o + timestep o)%Z
  /\ CoolingModel.current_mode (cooling o')
     = CoolingModel.determine_cooling_mode (cooling o)
  /\ appended_one (history o) (history o')
  /\ h_time (history o') = h_time (history o) ++ [current_time o]
  /\ h_cooling_mode (history o')
     = h_cooling_mode (history o)
       ++ [CoolingModel.determine_cooling_mode (cooling o)].
Proof.
  intros Hcap. unfold apply_control, ITLoadModel.update.
  rewrite compute_power_nonzero by exact Hcap.
  cbn. unfold appended_one. cbn.
  repeat split; eauto.
Qed.

Lemma apply_control_raise
    (o : t) (gs : GridSignalMonitor.state) (c : SimpleController.control) :
  ITLoadModel.total_capacity_kw (it_load o) = 0 ->
  snd (apply_control o gs c) = Raise ZeroDivisionError
  /\ history (fst (apply_control o gs c)) = history o
  /\ current_time (fst (apply_control o gs c)) = current_time o.
Proof.
  intros Hcap. unfold apply_control, ITLoadModel.update.
  rewrite compute_power_zero by exact Hcap. cbn. auto.
Qed.

Lemma get_system_state_ok (o : t) :
  ITLoadModel.total_capacity_kw (it_load o) <> 0 ->
  exists sys, get_system_state o = Ok sys.
Proof.
  intros H. unfold get_system_state, ITLoadModel.get_state.
  rewrite py_div_nonzero by exact H. eauto.
Qed.

Lemma get_system_state_raise (o : t) :
  ITLoadModel.total_capacity_kw (it_load o) = 0 ->
  get_system_state o = Raise ZeroDivisionError.
Proof.
  intros H. unfold get_system_state, ITLoadModel.get_state.
  rewrite H, py_div_zero. reflexivity.
Qed.

(** The snapshot carries the flex level of the IT load model. *)
Lemma get_system_state_flex (o : t) (sys : SimpleController.system_state) :
  get_system_state o = Ok sys ->
  ITLoadModel.st_flex_workload (SimpleController.ss_it_load sys)
  = ITLoadModel.flex_workload (it_load o).
Proof.
  unfold get_system_state, ITLoadModel.get_state.
  destruct (py_div _ _); [ | discriminate ].
  intros E. injection E as <-. reflexivity.
Qed.

(** [compute_control] never changes the controller's parameters. *)
Lemma compute_control_rate
    (ctl : SimpleController.t) (sys : SimpleController.system_state)
    (gs : GridSignalMonitor.state) :
  SimpleController.adjustment_rate (fst (SimpleController.compute_control ctl sys gs))
  = SimpleController.adjustment_rate ctl.
Proof.
  unfold SimpleController.compute_control.
  destruct (Rlt_dec _ 15); [ | destruct (Rlt_dec _ 25) ]; reflexivity.
Qed.

(** The flex target returned by [compute_control], case by case. *)
Lemma compute_control_flex
    (ctl : SimpleController.t) (sys : SimpleController.system_state)
    (gs : GridSignalMonitor.state) :
  let current_flex :=
    ITLoadModel.st_flex_workload (SimpleController.ss_it_load sys) in
  let rate := SimpleController.adjustment_rate ctl in
  let flex_target :=
    SimpleController.workload_flex
      (snd (SimpleController.compute_control ctl sys gs)) in
  flex_target = Rmin 1.0 (current_flex + rate)
  \/ flex_target = Rmax 0.1 (current_flex - rate)
  \/ flex_target = current_flex.
Proof.
  unfold SimpleController.compute_control.
  destruct (Rlt_dec _ 15); [ | destruct (Rlt_dec _ 25) ]; cbn;
    repeat match goal with
           | |- context [andb ?a ?b] => destruct (andb a b)
           | |- context [orb ?a ?b] => destruct (orb a b)
           end; auto.
Qed.

Lemma compute_control_flex_bounds
    (ctl : SimpleController.t) (sys : SimpleController.system_state)
    (gs : GridSignalMonitor.state) :
  let current_flex :=
    ITLoadModel.st_flex_workload (SimpleController.ss_it_load sys) in
  let rate := SimpleController.adjustment_rate ctl in
  let flex_target :=
    SimpleController.workload_flex
      (snd (SimpleController.compute_control ctl sys gs)) in
  0 <= rate -> 0.1 <= current_flex <= 1 ->
  0.1 <= flex_target <= 1 /\ Rabs (flex_target - current_flex) <= rate.
Proof.
  intros cur rate tgt Hrate Hcur.
  destruct (compute_control_flex ctl sys gs) as [E | [E | E]];
    fold cur rate tgt in E; rewrite E; clear E tgt; clearbody cur rate;
    unfold Rmin, Rmax, Rabs;
    repeat match goal with
           | |- context [Rle_dec ?a ?b] => destruct (Rle_dec a b)
           | |- context [Rcase_abs ?a] => destruct (Rcase_abs a)
           end; lra.
Qed.

Lemma np_clip_id (x : R) : 0 <= x <= 1 -> np_clip x 0 1 = x.
Proof.
  intros H. unfold np_clip, Rmin, Rmax.
  destruct (Rle_dec x 0); destruct (Rle_dec _ 1); lra.
Qed.

(** What a step leaves untouched, and what it always does before the
    first point where it can raise. *)
Lemma step_from_frame (gs : GridSignalMonitor.state) (o : t) :
  let o' := fst (step_from gs o) in
  let temp := diurnal_temp (hour_of (current_time o)) in
  config o' = config o /\ timestep o' = timestep o
  /\ ITLoadModel.total_capacity_kw (it_load o')
     = ITLoadModel.total_capacity_kw (it_load o)
  /\ SimpleController.adjustment_rate (controller o')
     = SimpleController.adjustment_rate (controller o)
  /\ CoolingModel.outdoor_temp (cooling o') = temp
  /\ CoolingModel.free_cooling_threshold (cooling o')
     = CoolingModel.free_cooling_threshold (cooling o)
  /\ CoolingModel.target_temp (cooling o') = CoolingModel.target_temp (cooling o)
  /\ GridSignalMonitor.current_state (grid o')
     = Some (GridSignalMonitor.set_outdoor_temp_c gs temp)
  /\ GridSignalMonitor.current_time (grid o')
     = GridSignalMonitor.current_time (grid o).
Proof.
  unfold step_from, inject_outdoor_temp.
  cbn [fst snd controller config it_load cooling grid timestep current_time
       history].
  fold (diurnal_temp (hour_of (current_time o))).
  destruct (get_system_state _) as [sys | e].
  - destruct (SimpleController.compute_control _ sys _) as [ctl c] eqn:Ec.
    assert (Hr : SimpleController.adjustment_rate ctl
                 = SimpleController.adjustment_rate (controller o)).
    { change ctl with (fst (ctl, c)). rewrite <- Ec.
      apply compute_control_rate. }
    match goal with
    | |- context [apply_control ?a ?b ?d] =>
        pose proof (apply_control_frame a b d) as F
    end.
    cbn in F. destruct F as (F1 & F2 & F3 & F4 & F5 & _ & F7 & F8 & F9).
    cbn. rewrite F1, F2, F3, F4, F5, F7, F8, F9. cbn.
    repeat split; auto.
  - cbn. repeat split; auto.
Qed.

(** With a non-zero total capacity a step returns; it advances the
    clock, appends one entry to every series, and records the mode chosen
    by the cooling model for the derived outdoor temperature. *)
Lemma step_from_ok (gs : GridSignalMonitor.state) (o : t) :
  ITLoadModel.total_capacity_kw (it_load o) <> 0 ->
  let o' := fst (step_from gs o) in
  let temp := diurnal_temp (hour_of (current_time o)) in
  (exists m, snd (step_from gs o) = Ok m)
  /\ current_time o' = (current_time o + timestep o)%Z
  /\ CoolingModel.current_mode (cooling o')
     = CoolingModel.determine_cooling_mode
         (CoolingModel.set_outdoor_temp (cooling o) temp)
  /\ appended_one (history o) (history o')
  /\ h_time (history o') = h_time (history o) ++ [current_time o]
  /\ h_cooling_mode (history o')
     = h_cooling_mode (history o)
       ++ [CoolingModel.determine_cooling_mode
             (CoolingModel.set_outdoor_temp (cooling o) temp)].
Proof.
  intros Hcap. unfold step_from, inject_outdoor_temp.
  cbn [fst snd controller config it_load cooling grid timestep current_time
       history].
  fold (diurnal_temp (hour_of (current_time o))).
  match goal with
  | |- context [get_system_state ?a] =>
      destruct (get_system_state_ok a Hcap) as [sys ->]
  end.
  destruct (SimpleController.compute_control _ sys _) as [ctl c].
  match goal with
  | |- context [apply_control ?a ?b ?d] =>
      pose proof (apply_control_ok a b d Hcap) as F
  end.
  cbn [fst snd controller config it_load cooling grid timestep current_time
       history] in F.
  exact F.
Qed.

(** With a zero total capacity a step raises while it takes the
    snapshot: nothing is appended and the clock does not move. *)
Lemma step_from_raise (gs : GridSignalMonitor.state) (o : t) :
  ITLoadModel.total_capacity_kw (it_load o) = 0 ->
  snd (step_from gs o) = Raise ZeroDivisionError
  /\ history (fst (step_from gs o)) = history o
  /\ current_time (fst (step_from gs o)) = current_time o
  /\ it_load (fst (step_from gs o)) = it_load o.
Proof.
  intros Hcap. unfold step_from, inject_outdoor_temp.
  rewrite get_system_state_raise by exact Hcap. cbn. auto.
Qed.

(** The flex level after a step is the clipped target of the controller,
    or the level before the step when the snapshot could not be taken. *)
Lemma step_from_flex (gs : GridSignalMonitor.state) (o : t) :
  let o1 := fst (inject_outdoor_temp o gs) in
  let gs1 := snd (inject_outdoor_temp o gs) in
  match get_system_state o1 with
  | Ok sys =>
      ITLoadModel.flex_workload (it_load (fst (step_from gs o)))
      = np_clip
          (SimpleController.workload_flex
             (snd (SimpleController.compute_control (controller o1) sys gs1)))
          0 1
  | Raise _ =>
      ITLoadModel.flex_workload (it_load (fst (step_from gs o)))
      = ITLoadModel.flex_workload (it_load o)
  end.
Proof.
  unfold step_from.
  destruct (inject_outdoor_temp o gs) as [o1 gs1] eqn:Ei.
  assert (Hit : it_load o1 = it_load o).
  { unfold inject_outdoor_temp in Ei. injection Ei as <- _. reflexivity. }
  cbn [fst snd].
  destruct (get_system_state o1) as [sys | e].
  - destruct (SimpleController.compute_control _ sys _) as [ctl c].
    match goal with
    | |- context [apply_control ?a ?b ?d] =>
        pose proof (apply_control_frame a b d) as F
    end.
    cbn [fst snd]. apply F.
  - cbn. now rewrite Hit.
Qed.

(** [step] is [step_from] on the grid state returned by the monitor. *)
Lemma step_unfold (u : R) (o : t) :
  step u o
  = step_from
      (snd (GridSignalMonitor.update (grid o) (timestep o) u))
      {| config := config o;
         it_load := it_load o;
         cooling := cooling o;
         grid := fst (GridSignalMonitor.update (grid o) (timestep o) u);
         controller := controller o;
         timestep := timestep o;
         current_time := current_time o;
         history := history o |}.
Proof.
  unfold step, observe.
  destruct (GridSignalMonitor.update _ _ _). reflexivity.
Qed.

(** The grid state of a step carries the hour of the monitor's clock
    after it has advanced. *)
Lemma update_hour (g : GridSignalMonitor.t) (dt : Z) (u : R) :
  GridSignalMonitor.hour (snd (GridSignalMonitor.update g dt u))
  = hour_of (GridSignalMonitor.current_time g + dt).
Proof. reflexivity. Qed.

Lemma step_reachable (o0 o : t) (u : R) :
  reachable o0 o -> reachable o0 (fst (step u o)).
Proof.
  intros H. rewrite step_unfold.
  apply reachable_step. apply reachable_grid with (o := o). exact H.
Qed.

End Step.

(** ** Controller in the loop *)

Section ControllerLoop.

Import DataCenterOptimizer.

Lemma inject_outdoor_temp_frame (o : t) (gs : GridSignalMonitor.state) :
  it_load (fst (inject_outdoor_temp o gs)) = it_load o
  /\ controller (fst (inject_outdoor_temp o gs)) = controller o.
Proof. split; reflexivity. Qed.

(** Along any run the flex level of the IT load stays within [0.1, 1]
    and the controller keeps its adjustment rate. *)
Lemma reachable_flex (o0 o : t) :
  reachable o0 o ->
  0 <= SimpleController.adjustment_rate (controller o0) ->
  0.1 <= ITLoadModel.flex_workload (it_load o0) <= 1 ->
  0.1 <= ITLoadModel.flex_workload (it_load o) <= 1
  /\ SimpleController.adjustment_rate (controller o)
     = SimpleController.adjustment_rate (controller o0).
Proof.
  intros Hreach Hrate H0.
  induction Hreach as [ | o g _ IH | o gs _ IH ].
  - split; [ exact H0 | reflexivity ].
  - exact IH.
  - destruct IH as [Hflex Hr]. split.
    + pose proof (step_from_flex gs o) as F. cbn zeta in F.
      destruct (inject_outdoor_temp_frame o gs) as [Hit Hctl].
      destruct (get_system_state (fst (inject_outdoor_temp o gs)))
        as [sys | e] eqn:Es.
      * pose proof (get_system_state_flex _ _ Es) as Hsnap.
        rewrite Hit in Hsnap.
        pose proof (compute_control_flex_bounds
                      (controller (fst (inject_outdoor_temp o gs))) sys
                      (snd (inject_outdoor_temp o gs))) as B.
        cbn zeta in B. rewrite Hctl, Hsnap, Hr in B.
        specialize (B Hrate Hflex). destruct B as [B _].
        rewrite F, Hctl, np_clip_id; lra.
      * rewrite F. exact Hflex.
    + destruct (step_from_frame gs o) as (_ & _ & _ & F & _).
      rewrite F. exact Hr.
Qed.

(** The states met by the loop of [run] are reachable. *)
Lemma run_loop_reachable (uniform : nat -> R) (n i : nat) (o0 o : t) :
  reachable o0 o -> reachable o0 (fst (run_loop uniform i n o)).
Proof.
  revert i o. induction n as [ | n IH ]; intros i o H; cbn [run_loop].
  - exact H.
  - pose proof (step_reachable o0 o (uniform i) H) as Hs.
    destruct (step (uniform i) o) as [o1 [m | e]]; cbn [fst] in Hs.
    + destruct (py_floordiv 3600 (timestep o1)) as [q | e]; [ | exact Hs ].
      destruct (py_mod (Z.of_nat i) q); [ | exact Hs ].
      apply IH. exact Hs.
    + exact Hs.
Qed.



End ControllerLoop.

Section FlexRounding.

Import PrimFloat.


End FlexRounding.

(** ** Orchestrator: runs *)

Section Run.

Import DataCenterOptimizer.

Lemma py_int_floor (x : R) (z : Z) :
  0 <= x -> IZR z <= x < IZR z + 1 -> py_int x = z.
Proof.
  intros H0 Hz. unfold py_int.
  destruct (Rle_dec 0 x); [ | contradiction ].
  symmetry. apply Int_part_spec. lra.
Qed.

(** For a non-negative quotient, [int] is the floor. *)
Lemma py_int_nonneg (x : R) :
  0 <= x -> IZR (py_int x) <= x < IZR (py_int x) + 1 /\ (0 <= py_int x)%Z.
Proof.
  intros H0. unfold py_int.
  destruct (Rle_dec 0 x); [ | contradiction ].
  destruct (base_Int_part x) as [H1 H2].
  split; [ lra | ].
  apply Z.lt_succ_r. apply lt_IZR. rewrite succ_IZR. lra.
Qed.

Lemma history_length_appended (h h' : history_t) (k : nat) :
  appended_one h h' -> history_length h k -> history_length h' (S k).
Proof.
  unfold appended_one, history_length.
  intros A L.
  repeat match goal with
         | H : _ /\ _ |- _ => destruct H
         | H : exists _, _ |- _ => destruct H
         end.
  repeat match goal with
         | H : _ = _ ++ [_] |- _ => rewrite H; clear H
         end.
  rewrite !length_app. cbn [length].
  repeat split; lia.
Qed.

Lemma history_length_empty : history_length empty_history 0.
Proof. unfold history_length. cbn. tauto. Qed.

(** One [step] with a non-zero total capacity. *)
Lemma step_ok (u : R) (o : t) :
  ITLoadModel.total_capacity_kw (it_load o) <> 0 ->
  let o' := fst (step u o) in
  (exists m, snd (step u o) = Ok m)
  /\ timestep o' = timestep o
  /\ ITLoadModel.total_capacity_kw (it_load o')
     = ITLoadModel.total_capacity_kw (it_load o)
  /\ current_time o' = (current_time o + timestep o)%Z
  /\ appended_one (history o) (history o').
Proof.
  intros Hcap. rewrite step_unfold.
  match goal with
  | |- context [step_from ?g ?a] =>
      pose proof (step_from_ok g a Hcap) as S;
      pose proof (step_from_frame g a) as F
  end.
  cbn zeta in S, F.
  cbn [config it_load cooling grid controller timestep current_time history]
    in S, F.
  destruct S as (S1 & S2 & _ & S4 & _).
  destruct F as (_ & F2 & F3 & _).
  cbn zeta. auto.
Qed.

(** The progress condition of the loop evaluates without fault exactly
    when the step does not exceed one hour. *)
Lemma progress_condition_ok (i : nat) (ts : Z) :
  (0 < ts <= 3600)%Z ->
  exists r, (per_hour <- py_floordiv 3600 ts ;; py_mod (Z.of_nat i) per_hour)
            = Ok r.
Proof.
  intros H. unfold py_floordiv, py_mod.
  destruct (Z.eqb_spec ts 0); [ lia | ].
  assert (1 <= 3600 / ts)%Z by (apply Z.div_le_lower_bound; lia).
  destruct (Z.eqb_spec (3600 / ts) 0); [ lia | ].
  eauto.
Qed.

Lemma progress_condition_raise (i : nat) (ts : Z) :
  (3600 < ts)%Z ->
  (per_hour <- py_floordiv 3600 ts ;; py_mod (Z.of_nat i) per_hour)
  = Raise ZeroDivisionError.
Proof.
  intros H. unfold py_floordiv, py_mod.
  destruct (Z.eqb_spec ts 0); [ lia | ].
  rewrite Z.div_small by lia. reflexivity.
Qed.

(** With a step of at most one hour and a non-zero capacity the loop
    performs all its [n] iterations: every series grows by [n] entries
    and the clock advances by [n] steps. *)
Lemma run_loop_ok (uniform : nat -> R) (n i k : nat) (o : t) :
  ITLoadModel.total_capacity_kw (it_load o) <> 0 ->
  (0 < timestep o <= 3600)%Z ->
  history_length (history o) k ->
  let o' := fst (run_loop uniform i n o) in
  snd (run_loop uniform i n o) = Ok tt
  /\ history_length (history o') (k + n)
  /\ current_time o' = (current_time o + Z.of_nat n * timestep o)%Z
  /\ timestep o' = timestep o.
Proof.
  revert i k o. induction n as [ | n IH ]; intros i k o Hcap Hts Hlen;
    cbn [run_loop].
  - cbn [fst snd]. rewrite Nat.add_0_r.
    split; [ reflexivity | split; [ exact Hlen | split; [ lia | reflexivity ] ] ].
  - destruct (step_ok (uniform i) o Hcap) as ([m Hm] & S2 & S3 & S4 & S5).
    destruct (step (uniform i) o) as [o1 r]. cbn [fst snd] in *. subst r.
    destruct (progress_condition_ok i (timestep o1)) as [q ->];
      [ rewrite S2; exact Hts | ].
    destruct (IH (S i) (S k) o1) as (I1 & I2 & I3 & I4).
    + rewrite S3. exact Hcap.
    + rewrite S2. exact Hts.
    + apply history_length_appended with (h := history o); assumption.
    + cbn zeta. split; [ | split; [ | split ] ].
      * exact I1.
      * replace (k + S n)%nat with (S k + n)%nat by lia. exact I2.
      * rewrite I3, S4, S2. lia.
      * rewrite I4. exact S2.
Qed.

(** With a step longer than one hour the first evaluation of the
    progress condition raises, right after the first [step]. *)
Lemma run_loop_long_step (uniform : nat -> R) (n i k : nat) (o : t) :
  ITLoadModel.total_capacity_kw (it_load o) <> 0 ->
  (3600 < timestep o)%Z ->
  history_length (history o) k ->
  snd (run_loop uniform i (S n) o) = Raise ZeroDivisionError
  /\ history_length (history (fst (run_loop uniform i (S n) o))) (S k).
Proof.
  intros Hcap Hts Hlen. cbn [run_loop].
  destruct (step_ok (uniform i) o Hcap) as ([m Hm] & S2 & _ & _ & S5).
  destruct (step (uniform i) o) as [o1 r]. cbn [fst snd] in *. subst r.
  rewrite progress_condition_raise by (rewrite S2; exact Hts).
  cbn [fst snd]. split; [ reflexivity | ].
  apply history_length_appended with (h := history o); assumption.
Qed.

(** On a freshly constructed orchestrator with a step of at most one
    hour, a non-zero capacity and a non-negative duration, [run] performs
    [floor (duration * 3600 / timestep)] steps, each appending one entry
    to every series, and reaches [get_results]. *)
Lemma run_history_length
    (uniform : nat -> R) (cfg : Config.t) (now_grid now : Z) (d : R) :
  let o := init cfg now_grid now in
  ITLoadModel.total_capacity_kw (it_load o) <> 0 ->
  (0 < timestep o <= 3600)%Z ->
  0 <= d ->
  exists N : Z,
    num_steps o d = Ok N
    /\ IZR N <= d * 3600 / IZR (timestep o) < IZR N + 1
    /\ history_length (history (fst (run uniform o d))) (Z.to_nat N)
    /\ current_time (fst (run uniform o d))
       = (current_time o + N * timestep o)%Z
    /\ snd (run uniform o d) = get_results (fst (run uniform o d)).
Proof.
  intros o Hcap Hts Hd.
  assert (Hpos : 0 < IZR (timestep o)) by (apply IZR_lt; lia).
  assert (Hq : 0 <= d * 3600 / IZR (timestep o)).
  { apply Rmult_le_pos; [ lra | ].
    apply Rlt_le, Rinv_0_lt_compat. exact Hpos. }
  destruct (py_int_nonneg _ Hq) as [Hfloor HN].
  exists (py_int (d * 3600 / IZR (timestep o))).
  unfold run, num_steps. rewrite py_div_nonzero by lra.
  destruct (run_loop_ok uniform
              (Z.to_nat (py_int (d * 3600 / IZR (timestep o)))) 0 0 o
              Hcap Hts history_length_empty) as (L1 & L2 & L3 & _).
  destruct (run_loop uniform 0 _ o) as [o' r]. cbn [fst snd] in *. subst r.
  cbn [fst snd]. split; [ | split; [ | split; [ | split ] ] ].
  - reflexivity.
  - exact Hfloor.
  - exact L2.
  - rewrite L3, Z2Nat.id by exact HN. reflexivity.
  - reflexivity.
Qed.

Lemma get_results_empty (o : t) :
  h_pue (history o) = [] -> get_results o = Raise ValueError.
Proof. intros H. unfold get_results. rewrite H. reflexivity. Qed.

(** C1. When the duration and the step size give zero steps, [run] on a
    freshly constructed orchestrator executes no step and then raises
    [ValueError] from [np.min] on the empty PUE series: no result
    structure is returned. *)
Theorem run_zero_steps_raises
    (uniform : nat -> R) (cfg : Config.t) (now_grid now : Z) (d : R) :
  let o := init cfg now_grid now in
  num_steps o d = Ok 0%Z ->
  run uniform o d = (o, Raise ValueError).
Proof.
  intros o H. unfold run. rewrite H. cbn [Z.to_nat run_loop].
  rewrite get_results_empty; reflexivity.
Qed.

Lemma run_zero_steps_raises_witness :
  let o := init (create_default_config 0 0) 0 0 in
  num_steps o 0.05 = Ok 0%Z
  /\ forall uniform, run uniform o 0.05 = (o, Raise ValueError).
Proof.
  intros o.
  assert (H : num_steps o 0.05 = Ok 0%Z).
  { unfold num_steps. cbn [timestep o init get create_default_config
                           Config.timestep_seconds].
    rewrite py_div_nonzero by lra.
    f_equal. apply py_int_floor; lra. }
  split; [ exact H | ].
  intros uniform.
  apply (run_zero_steps_raises uniform (create_default_config 0 0) 0 0 0.05 H).
Defined.

End Run.

(** ** Step count, results and the outdoor temperature *)

Section Results.

Import DataCenterOptimizer.

(** C7. On a freshly constructed orchestrator whose step is longer than
    one hour, [run] with a duration that gives one step or more performs a
    single [step] and then raises [ZeroDivisionError] while it evaluates
    [i % (3600 // self.timestep)]: every series holds one entry, whatever
    the computed number of steps is. *)
Theorem run_stops_after_first_step
    (uniform : nat -> R) (cfg : Config.t) (now_grid now : Z) (d : R) (N : Z) :
  let o := init cfg now_grid now in
  ITLoadModel.total_capacity_kw (it_load o) <> 0 ->
  (3600 < timestep o)%Z ->
  num_steps o d = Ok N ->
  (1 <= N)%Z ->
  snd (run uniform o d) = Raise ZeroDivisionError
  /\ history_length (history (fst (run uniform o d))) 1.
Proof.
  intros o Hcap Hts HN Hpos. unfold run. rewrite HN.
  destruct (Z.to_nat N) as [ | n ] eqn:En; [ lia | ].
  destruct (run_loop_long_step uniform n 0 0 o Hcap Hts history_length_empty)
    as [L1 L2].
  destruct (run_loop uniform 0 (S n) o) as [o' r]. cbn [fst snd] in *.
  subst r. cbn [fst snd]. split; [ reflexivity | exact L2 ].
Qed.

Lemma run_stops_after_first_step_witness :
  let cfg :=
    {| Config.it_load := None;
       Config.cooling := None;
       Config.grid := None;
       Config.controller := None;
       Config.timestep_seconds := Some 7200%Z;
       Config.start_time := Some 0%Z |} in
  let o := init cfg 0 0 in
  num_steps o 24 = Ok 12%Z
  /\ forall uniform,
       snd (run uniform o 24) = Raise ZeroDivisionError
       /\ history_length (history (fst (run uniform o 24))) 1.
Proof.
  intros cfg o.
  assert (H : num_steps o 24 = Ok 12%Z).
  { unfold num_steps. cbn [timestep o init get cfg Config.timestep_seconds].
    rewrite py_div_nonzero by lra.
    f_equal. apply py_int_floor; lra. }
  split; [ exact H | ].
  intros uniform.
  apply (run_stops_after_first_step uniform cfg 0 0 24 12).
  - cbn. lra.
  - cbn. lia.
  - exact H.
  - lia.
Defined.

Lemma py_sum_scale_from (l : list R) (a c : R) :
  fold_left Rplus l a * c = fold_left Rplus (map (fun p => p * c) l) (a * c).
Proof.
  revert a. induction l as [ | x l IH ]; intros a; cbn.
  - reflexivity.
  - rewrite IH. f_equal. lra.
Qed.

Lemma py_sum_scale (l : list R) (c : R) :
  py_sum l * c = py_sum (map (fun p => p * c) l).
Proof.
  unfold py_sum. rewrite py_sum_scale_from. f_equal. lra.
Qed.

Lemma get_results_ok (o : t) :
  h_pue (history o) <> [] -> exists res, get_results o = Ok res.
Proof.
  intros H. unfold get_results.
  destruct (h_pue (history o)) as [ | x l ]; [ contradiction | ].
  cbn. eauto.
Qed.

(** C8. [get_results] returns as soon as the history is not empty, and
    whenever it returns it hands back the history of the orchestrator and
    its [total_energy_kwh] is the sum over that history of
    [total_power_kw * (timestep_seconds / 3600)]. *)
Theorem total_energy_is_sum (o : t) :
  (h_pue (history o) <> [] -> exists res, get_results o = Ok res)
  /\ (forall res,
        get_results o = Ok res ->
        r_history res = history o
        /\ total_energy_kwh (r_summary res)
           = py_sum (map (fun total_power_kw =>
                            total_power_kw * (IZR (timestep o) / 3600))
                         (h_total_power_kw (history o)))).
Proof.
  split; [ apply get_results_ok | ].
  intros res. unfold get_results.
  destruct (np_min _); [ | discriminate ].
  destruct (np_max _); [ | discriminate ].
  intros E. injection E as <-. cbn.
  split; [ reflexivity | ].
  rewrite py_sum_scale. f_equal.
  apply map_ext. intros p. f_equal. lra.
Qed.

Lemma total_energy_is_sum_witness :
  let o := fst (step 0 (init (create_default_config 0 0) 0 0)) in
  length (h_total_power_kw (history o)) = 1%nat
  /\ exists res,
       get_results o = Ok res
       /\ r_history res = history o
       /\ total_energy_kwh (r_summary res)
          = py_sum (map (fun total_power_kw =>
                           total_power_kw * (IZR (timestep o) / 3600))
                        (h_total_power_kw (history o))).
Proof.
  intros o.
  destruct (step_ok 0 (init (create_default_config 0 0) 0 0))
    as (_ & _ & _ & _ & A); [ cbn; lra | ].
  fold o in A.
  split.
  - destruct A as (_ & _ & _ & [x Hx] & _). rewrite Hx. reflexivity.
  - destruct (total_energy_is_sum o) as [Hok Hsum].
    destruct Hok as [res Hres].
    + destruct A as (_ & _ & _ & _ & [x Hx] & _).
      rewrite Hx. cbn. discriminate.
    + exists res. split; [ exact Hres | apply Hsum; exact Hres ].
Defined.

(** C9. The mode selected by the cooling model during a step is a
    function of the outdoor temperature and of the two thresholds. Two
    cooling models that agree on these select the same mode whatever
    supply setpoints they are given; two executions of the control part
    of a step that return, on orchestrators whose cooling models agree on
    these, record the same mode whatever control dictionaries are
    applied; and so do two whole steps taken at the same hour of day,
    whatever their controllers and grid states are. *)
Theorem cooling_mode_noninterference :
  (forall (c1 c2 : CoolingModel.t) (s1 s2 dt1 dt2 heat1 heat2 : R),
      CoolingModel.outdoor_temp c1 = CoolingModel.outdoor_temp c2 ->
      CoolingModel.free_cooling_threshold c1
      = CoolingModel.free_cooling_threshold c2 ->
      CoolingModel.target_temp c1 = CoolingModel.target_temp c2 ->
      CoolingModel.current_mode
        (fst (CoolingModel.update (CoolingModel.set_supply_temp c1 s1) dt1 heat1))
      = CoolingModel.current_mode
          (fst (CoolingModel.update (CoolingModel.set_supply_temp c2 s2) dt2 heat2)))
  /\ (forall (o1 o2 : t) (gs1 gs2 : GridSignalMonitor.state)
             (k1 k2 : SimpleController.control) (m1 m2 : metrics),
        CoolingModel.outdoor_temp (cooling o1)
        = CoolingModel.outdoor_temp (cooling o2) ->
        CoolingModel.free_cooling_threshold (cooling o1)
        = CoolingModel.free_cooling_threshold (cooling o2) ->
        CoolingModel.target_temp (cooling o1)
        = CoolingModel.target_temp (cooling o2) ->
        snd (apply_control o1 gs1 k1) = Ok m1 ->
        snd (apply_control o2 gs2 k2) = Ok m2 ->
        CoolingModel.current_mode (cooling (fst (apply_control o1 gs1 k1)))
        = CoolingModel.current_mode (cooling (fst (apply_control o2 gs2 k2)))
        /\ last (h_cooling_mode (history (fst (apply_control o1 gs1 k1))))
                CoolingModel.MODE_HYBRID
           = last (h_cooling_mode (history (fst (apply_control o2 gs2 k2))))
                  CoolingModel.MODE_HYBRID)
  /\ (forall (o1 o2 : t) (gs1 gs2 : GridSignalMonitor.state) (m1 m2 : metrics),
        hour_of (current_time o1) = hour_of (current_time o2) ->
        CoolingModel.free_cooling_threshold (cooling o1)
        = CoolingModel.free_cooling_threshold (cooling o2) ->
        CoolingModel.target_temp (cooling o1)
        = CoolingModel.target_temp (cooling o2) ->
        snd (step_from gs1 o1) = Ok m1 ->
        snd (step_from gs2 o2) = Ok m2 ->
        CoolingModel.current_mode (cooling (fst (step_from gs1 o1)))
        = CoolingModel.current_mode (cooling (fst (step_from gs2 o2)))).
Proof.
  assert (Hmode : forall c1 c2 : CoolingModel.t,
             CoolingModel.outdoor_temp c1 = CoolingModel.outdoor_temp c2 ->
             CoolingModel.free_cooling_threshold c1
             = CoolingModel.free_cooling_threshold c2 ->
             CoolingModel.target_temp c1 = CoolingModel.target_temp c2 ->
             CoolingModel.determine_cooling_mode c1
             = CoolingModel.determine_cooling_mode c2).
  { intros c1 c2 H1 H2 H3.
    unfold CoolingModel.determine_cooling_mode,
      CoolingModel.compute_free_cooling_ratio.
    rewrite H1, H2, H3. reflexivity. }
  split; [ | split ].
  - intros c1 c2 s1 s2 dt1 dt2 heat1 heat2 H1 H2 H3.
    cbn. apply Hmode; assumption.
  - intros o1 o2 gs1 gs2 k1 k2 m1 m2 H1 H2 H3 R1 R2.
    assert (C1 : ITLoadModel.total_capacity_kw (it_load o1) <> 0).
    { intros Z. destruct (apply_control_raise o1 gs1 k1 Z) as [E _].
      rewrite E in R1. discriminate. }
    assert (C2 : ITLoadModel.total_capacity_kw (it_load o2) <> 0).
    { intros Z. destruct (apply_control_raise o2 gs2 k2 Z) as [E _].
      rewrite E in R2. discriminate. }
    destruct (apply_control_ok o1 gs1 k1 C1) as (_ & _ & M1 & _ & _ & L1).
    destruct (apply_control_ok o2 gs2 k2 C2) as (_ & _ & M2 & _ & _ & L2).
    rewrite M1, M2, L1, L2, !last_last.
    split; apply Hmode; assumption.
  - intros o1 o2 gs1 gs2 m1 m2 Hh H2 H3 R1 R2.
    assert (C1 : ITLoadModel.total_capacity_kw (it_load o1) <> 0).
    { intros Z. destruct (step_from_raise gs1 o1 Z) as [E _].
      rewrite E in R1. discriminate. }
    assert (C2 : ITLoadModel.total_capacity_kw (it_load o2) <> 0).
    { intros Z. destruct (step_from_raise gs2 o2 Z) as [E _].
      rewrite E in R2. discriminate. }
    destruct (step_from_ok gs1 o1 C1) as (_ & _ & M1 & _).
    destruct (step_from_ok gs2 o2 C2) as (_ & _ & M2 & _).
    rewrite M1, M2, Hh. apply Hmode; [ reflexivity | exact H2 | exact H3 ].
Qed.

Lemma cooling_mode_noninterference_witness :
  let c := CoolingModel.init Config.empty_cooling in
  CoolingModel.current_mode
    (fst (CoolingModel.update (CoolingModel.set_supply_temp c 20) 300 1000))
  = CoolingModel.current_mode
      (fst (CoolingModel.update (CoolingModel.set_supply_temp c 16) 300 5000)).
Proof.
  intros c.
  apply (proj1 cooling_mode_noninterference c c 20 16 300 300 1000 5000);
    reflexivity.
Defined.

End Results.

(** ** The synthetic outdoor temperature *)

Section OutdoorTemperature.

Import DataCenterOptimizer.

Lemma diurnal_temp_0 : diurnal_temp 0 = 5.
Proof.
  unfold diurnal_temp.
  replace ((0 - 6) * PI / 12) with (- (PI / 2)) by lra.
  rewrite sin_neg, sin_PI2. lra.
Qed.

Lemma diurnal_temp_6 : diurnal_temp 6 = 15.
Proof.
  unfold diurnal_temp.
  replace ((6 - 6) * PI / 12) with 0 by lra.
  rewrite sin_0. lra.
Qed.

Lemma diurnal_temp_5 : diurnal_temp 5 < 15.
Proof.
  unfold diurnal_temp.
  replace ((5 - 6) * PI / 12) with (- (PI / 12)) by lra.
  rewrite sin_neg.
  assert (0 < sin (PI / 12)).
  { pose proof PI_RGT_0. apply sin_gt_0; lra. }
  lra.
Qed.

(** In every step the temperature comes from the hour of the
    orchestrator's clock before it advances, while the grid state carries
    the hour of the monitor's clock after it has advanced. *)
Lemma step_outdoor_temp (u : R) (o : t) :
  let o' := fst (step u o) in
  let temp := diurnal_temp (hour_of (current_time o)) in
  CoolingModel.outdoor_temp (cooling o') = temp
  /\ exists gs,
       GridSignalMonitor.current_state (grid o') = Some gs
       /\ GridSignalMonitor.outdoor_temp_c gs = Some temp
       /\ GridSignalMonitor.hour gs
          = hour_of (GridSignalMonitor.current_time (grid o) + timestep o).
Proof.
  rewrite step_unfold.
  match goal with
  | |- context [step_from ?g ?a] => pose proof (step_from_frame g a) as F
  end.
  cbn zeta in F.
  cbn [config it_load cooling grid controller timestep current_time history]
    in F.
  destruct F as (_ & _ & _ & _ & F5 & _ & _ & F8 & _).
  cbn zeta. split; [ exact F5 | ].
  eexists. split; [ exact F8 | ].
  split; reflexivity.
Qed.

(** A run of one step ends in the state reached by that step. *)
Lemma run_one_step (uniform : nat -> R) (o : t) (d : R) :
  ITLoadModel.total_capacity_kw (it_load o) <> 0 ->
  (0 < timestep o <= 3600)%Z ->
  num_steps o d = Ok 1%Z ->
  fst (run uniform o d) = fst (step (uniform 0%nat) o).
Proof.
  intros Hcap Hts HN. unfold run. rewrite HN.
  change (Z.to_nat 1) with 1%nat. cbn [run_loop].
  destruct (step_ok (uniform 0%nat) o Hcap) as ([m Hm] & S2 & _).
  destruct (step (uniform 0%nat) o) as [o1 r]. cbn [fst snd] in *. subst r.
  destruct (progress_condition_ok 0 (timestep o1)) as [q ->];
    [ rewrite S2; exact Hts | ].
  reflexivity.
Qed.

(** C3. At every step, the outdoor temperature written into the grid
    state and pushed to the cooling model is
    [15 + 10 * sin ((h - 6) * pi / 12)] where [h] is the hour of the
    orchestrator's own clock at the start of the step; the grid state of
    that step carries the hour of the monitor's clock, which is one step
    ahead. A run of one step with the default configuration starting at
    hour 0 injects exactly 5.0 degrees. *)
Theorem outdoor_temp_from_orchestrator_clock :
  (forall (u : R) (o : t),
      let o' := fst (step u o) in
      let temp := diurnal_temp (hour_of (current_time o)) in
      CoolingModel.outdoor_temp (cooling o') = temp
      /\ exists gs,
           GridSignalMonitor.current_state (grid o') = Some gs
           /\ GridSignalMonitor.outdoor_temp_c gs = Some temp
           /\ GridSignalMonitor.hour gs
              = hour_of (GridSignalMonitor.current_time (grid o) + timestep o))
  /\ (forall (uniform : nat -> R) (now_grid now : Z),
        hour_of now = 0%Z ->
        let o := init (create_default_config now_grid now) now_grid now in
        let o' := fst (run uniform o (1 / 12)) in
        num_steps o (1 / 12) = Ok 1%Z
        /\ CoolingModel.outdoor_temp (cooling o') = 5.0
        /\ exists gs,
             GridSignalMonitor.current_state (grid o') = Some gs
             /\ GridSignalMonitor.outdoor_temp_c gs = Some 5.0).
Proof.
  split; [ apply step_outdoor_temp | ].
  intros uniform now_grid now Hhour o o'.
  assert (HN : num_steps o (1 / 12) = Ok 1%Z).
  { unfold num_steps.
    cbn [timestep o init get create_default_config Config.timestep_seconds].
    rewrite py_div_nonzero by lra.
    f_equal. apply py_int_floor; lra. }
  split; [ exact HN | ].
  assert (E : o' = fst (step (uniform 0%nat) o)).
  { apply run_one_step; [ cbn; lra | cbn; lia | exact HN ]. }
  destruct (step_outdoor_temp (uniform 0%nat) o) as [T (gs & G1 & G2 & _)].
  rewrite <- E in T, G1.
  assert (Hnow : current_time o = now) by reflexivity.
  rewrite Hnow, Hhour, diurnal_temp_0 in T, G2.
  split; [ rewrite T; lra | ].
  exists gs. split; [ exact G1 | ].
  rewrite G2. f_equal. lra.
Qed.

Lemma outdoor_temp_from_orchestrator_clock_witness :
  let o := init (create_default_config 0 0) 0 0 in
  CoolingModel.outdoor_temp (cooling (fst (run (fun _ => 0) o (1 / 12)))) = 5.0.
Proof.
  intros o.
  apply (proj2 outdoor_temp_from_orchestrator_clock (fun _ => 0) 0%Z 0%Z).
  reflexivity.
Defined.

(** C3, as first stated with the hour carried by the grid state, fails
    on a step that crosses an hour boundary: starting at 05:55:00
    with the default configuration, the grid state of the first step
    carries hour 6 while the temperature is that of hour 5. *)
Lemma outdoor_temp_grid_hour_counterexample :
  let o := init (create_default_config 21300 21300) 21300 21300 in
  let o' := fst (step 0 o) in
  exists gs,
    GridSignalMonitor.current_state (grid o') = Some gs
    /\ GridSignalMonitor.hour gs = 6%Z
    /\ GridSignalMonitor.outdoor_temp_c gs
       <> Some (diurnal_temp (GridSignalMonitor.hour gs))
    /\ CoolingModel.outdoor_temp (cooling o')
       <> diurnal_temp (GridSignalMonitor.hour gs).
Proof.
  intros o o'.
  destruct (step_outdoor_temp 0 o) as [T (gs & G1 & G2 & G3)].
  fold o' in T, G1.
  assert (Hh : GridSignalMonitor.hour gs = 6%Z) by (rewrite G3; reflexivity).
  assert (Ht : diurnal_temp (hour_of (current_time o)) = diurnal_temp 5)
    by reflexivity.
  rewrite Ht in T, G2.
  pose proof diurnal_temp_5 as H5. pose proof diurnal_temp_6 as H6.
  exists gs. split; [ exact G1 | ]. split; [ exact Hh | ].
  rewrite Hh, G2, T. split.
  - intros E. injection E as E. lra.
  - lra.
Qed.

End OutdoorTemperature.

(** * Further properties of the models *)

(** ** IT load model: workload, power and heat *)

Section ITLoadMore.

Import ITLoadModel.

Lemma np_clip_range (x : R) : 0 <= np_clip x 0 1 <= 1.
Proof.
  unfold np_clip, Rmin, Rmax.
  destruct (Rle_dec x 0); destruct (Rle_dec _ 1); lra.
Qed.

Lemma np_clip_low (x : R) : x < 0 -> np_clip x 0 1 = 0.
Proof.
  intros H. unfold np_clip, Rmin, Rmax.
  destruct (Rle_dec x 0); destruct (Rle_dec _ 1); lra.
Qed.

Lemma np_clip_high (x : R) : x > 1 -> np_clip x 0 1 = 1.
Proof.
  intros H. unfold np_clip, Rmin, Rmax.
  destruct (Rle_dec x 0); destruct (Rle_dec _ 1); lra.
Qed.

(** X1. [set_workload] stores utilizations within [0, 1] whatever it is
    given: a value in range is stored as it is, a value above 1 as 1, a
    value below 0 as 0; storing the stored values again changes nothing. *)
Theorem set_workload_clamps (self : t) (base_util flex_util : R) :
  let self' := set_workload self base_util flex_util in
  (0 <= base_workload self' <= 1 /\ 0 <= flex_workload self' <= 1)
  /\ (0 <= base_util <= 1 -> base_workload self' = base_util)
  /\ (0 <= flex_util <= 1 -> flex_workload self' = flex_util)
  /\ (base_util > 1 -> base_workload self' = 1)
  /\ (flex_util > 1 -> flex_workload self' = 1)
  /\ (base_util < 0 -> base_workload self' = 0)
  /\ (flex_util < 0 -> flex_workload self' = 0)
  /\ set_workload self' (base_workload self') (flex_workload self') = self'.
Proof.
  cbn zeta. cbn [set_workload base_workload flex_workload].
  split; [ split; apply np_clip_range | ].
  split; [ apply np_clip_id | ].
  split; [ apply np_clip_id | ].
  split; [ apply np_clip_high | ].
  split; [ apply np_clip_high | ].
  split; [ apply np_clip_low | ].
  split; [ apply np_clip_low | ].
  unfold set_workload. cbn.
  rewrite !(np_clip_id (np_clip _ 0 1)) by apply np_clip_range.
  reflexivity.
Qed.

Lemma set_workload_clamps_witness :
  let self' := set_workload (init Config.empty_it_load) 1.5 (-0.2) in
  base_workload self' = 1 /\ flex_workload self' = 0.
Proof.
  intros self'. split.
  - apply (set_workload_clamps (init Config.empty_it_load) 1.5 (-0.2)). lra.
  - apply (set_workload_clamps (init Config.empty_it_load) 1.5 (-0.2)). lra.
Defined.

(** The capacity-weighted average utilization lies within [0, 1]. *)
Lemma weighted_utilization_range (b f bw fw : R) :
  0 <= b -> 0 <= f -> 0 < b + f -> 0 <= bw <= 1 -> 0 <= fw <= 1 ->
  0 <= bw * (b / (b + f)) + fw * (f / (b + f)) <= 1.
Proof.
  intros Hb Hf Ht Hbw Hfw.
  assert (Hi : 0 < / (b + f)) by (apply Rinv_0_lt_compat; lra).
  assert (Hone : (b + f) * / (b + f) = 1) by (apply Rinv_r; lra).
  unfold Rdiv.
  set (i := / (b + f)) in *.
  assert (Hwb : 0 <= b * i) by nra.
  assert (Hwf : 0 <= f * i) by nra.
  assert (Hsum : b * i + f * i = 1) by nra.
  nra.
Qed.

(** X2. With non-negative capacities of positive sum, utilizations within
    [0, 1], an idle power not above the maximum power and a non-negative
    number of servers, [compute_power] returns a power between the all-idle
    power and the all-busy power of the server fleet. *)
Theorem compute_power_bounds (self : t) :
  capacity_consistent self ->
  0 <= base_capacity_kw self -> 0 <= flex_capacity_kw self ->
  0 < base_capacity_kw self + flex_capacity_kw self ->
  0 <= base_workload self <= 1 -> 0 <= flex_workload self <= 1 ->
  server_idle_power_w self <= server_max_power_w self ->
  0 <= num_servers self ->
  exists power_kw : R,
    compute_power self = Ok power_kw
    /\ server_idle_power_w self * num_servers self / 1000
       <= power_kw
       <= server_max_power_w self * num_servers self / 1000.
Proof.
  unfold capacity_consistent.
  intros Hc Hb Hf Ht Hbw Hfw Hp Hn.
  eexists. split; [ apply compute_power_nonzero; lra | ].
  rewrite Hc.
  pose proof (weighted_utilization_range _ _ _ _ Hb Hf Ht Hbw Hfw) as Hu.
  set (u := base_workload self * _ + flex_workload self * _) in *.
  clearbody u.
  assert (Hd : 0 <= (server_max_power_w self - server_idle_power_w self) * u
               <= server_max_power_w self - server_idle_power_w self) by nra.
  set (d := (server_max_power_w self - server_idle_power_w self) * u) in *.
  clearbody d.
  assert (Hdn : 0 <= d * num_servers self
                <= (server_max_power_w self - server_idle_power_w self)
                   * num_servers self) by nra.
  lra.
Qed.

Lemma compute_power_bounds_witness :
  exists power_kw : R,
    compute_power (init Config.empty_it_load) = Ok power_kw
    /\ 100 <= power_kw <= 300.
Proof.
  destruct (compute_power_bounds (init Config.empty_it_load)) as [p [Hp Hb]];
    try (cbn; lra).
  - reflexivity.
  - exists p. split; [ exact Hp | ]. cbn in Hb. lra.
Defined.

(** X3. When [update] returns, the heat it returns is the stored heat and
    is 3412.14 times the stored power, which is the power [compute_power]
    gives; the utilizations are untouched; the time step has no influence,
    and updating the updated model again returns the same model and heat. *)
Theorem update_heat_consistent (self self' : t) (dt : Z) (heat : R) :
  update self dt = Ok (self', heat) ->
  heat = current_heat_btu_hr self'
  /\ heat = current_power_kw self' * 3412.14
  /\ compute_power self = Ok (current_power_kw self')
  /\ base_workload self' = base_workload self
  /\ flex_workload self' = flex_workload self
  /\ (forall dt' : Z, update self dt' = Ok (self', heat))
  /\ (forall dt' : Z, update self' dt' = Ok (self', heat)).
Proof.
  unfold update. destruct (compute_power self) as [p | e] eqn:Ep;
    [ | discriminate ].
  intros E. injection E as <- <-. cbn.
  repeat split; try reflexivity.
  intros _. unfold compute_power in *. cbn. rewrite Ep. reflexivity.
Qed.

Lemma update_heat_consistent_witness :
  exists self' heat,
    update (init Config.empty_it_load) 300 = Ok (self', heat)
    /\ heat = current_power_kw self' * 3412.14.
Proof.
  destruct (update (init Config.empty_it_load) 300) as [[self' heat] | e] eqn:E.
  - exists self', heat. split; [ reflexivity | ].
    apply (update_heat_consistent _ _ _ _ E).
  - exfalso. unfold update in E.
    rewrite compute_power_nonzero in E by (cbn; lra). discriminate.
Defined.

(** X4. On a freshly constructed model [get_state] and [compute_power]
    both raise [ZeroDivisionError] when the total capacity is zero. On any
    model with a non-zero total capacity both return: the reported
    utilizations, power and heat are the stored ones, and the power is the
    linear server model at the reported [total_utilization]. *)
Theorem get_state_total_utilization :
  (forall config : Config.it_load_t,
      total_capacity_kw (init config) = 0 ->
      get_state (init config) = Raise ZeroDivisionError
      /\ compute_power (init config) = Raise ZeroDivisionError)
  /\ (forall self : t,
        total_capacity_kw self <> 0 ->
        exists st power_kw,
          get_state self = Ok st
          /\ compute_power self = Ok power_kw
          /\ power_kw
             = (server_idle_power_w self
                + (server_max_power_w self - server_idle_power_w self)
                  * st_total_utilization st)
               * num_servers self / 1000
          /\ st_base_workload st = base_workload self
          /\ st_flex_workload st = flex_workload self
          /\ st_power_kw st = current_power_kw self
          /\ st_heat_btu_hr st = current_heat_btu_hr self).
Proof.
  split.
  - intros config H. split; [ | now apply compute_power_zero ].
    unfold get_state. rewrite H, py_div_zero. reflexivity.
  - intros self H. unfold get_state. rewrite py_div_nonzero by exact H.
    do 2 eexists. split; [ reflexivity | ].
    split; [ now apply compute_power_nonzero | ].
    cbn. repeat split; try reflexivity.
    f_equal; [ | lra ]. f_equal. f_equal. field. exact H.
Qed.

Lemma get_state_total_utilization_witness :
  get_state (init (Config.mk_it_load (Some 0) (Some 0) None None None))
  = Raise ZeroDivisionError
  /\ exists st, get_state (init Config.empty_it_load) = Ok st.
Proof.
  split.
  - apply (proj1 get_state_total_utilization
             (Config.mk_it_load (Some 0) (Some 0) None None None)).
    cbn. lra.
  - destruct (proj2 get_state_total_utilization (init Config.empty_it_load))
      as (st & _ & Hst & _); [ cbn; lra | ].
    exists st. exact Hst.
Defined.

(** X5. After any [set_workload] on a model of non-negative flexible
    capacity, the flexible load in use reported by
    [get_flexible_capacity] lies between 0 and the reported maximum, which
    is the configured flexible capacity. *)
Theorem get_flexible_capacity_bounds (self : t) (base_util flex_util : R) :
  0 <= flex_capacity_kw self ->
  let '(current, maximum) :=
    get_flexible_capacity (set_workload self base_util flex_util) in
  0 <= current <= maximum /\ maximum = flex_capacity_kw self.
Proof.
  intros H. cbn.
  pose proof (np_clip_range flex_util) as Hc.
  split; [ nra | reflexivity ].
Qed.

Lemma get_flexible_capacity_bounds_witness :
  fst (get_flexible_capacity (set_workload (init Config.empty_it_load) 0.7 3))
  <= 500.
Proof.
  pose proof (get_flexible_capacity_bounds (init Config.empty_it_load) 0.7 3)
    as H.
  cbn in H. cbn. apply H. lra.
Defined.

End ITLoadMore.

(** ** Cooling model: ratio, power, thermal state and PUE *)

Section CoolingMore.

Import CoolingModel.

Lemma interpolation_strict (x lo hi : R) :
  lo < x < hi -> 0 < 1 - (x - lo) / (hi - lo) < 1.
Proof.
  intros H.
  assert (Hi : 0 < / (hi - lo)) by (apply Rinv_0_lt_compat; lra).
  assert (Hone : (hi - lo) * / (hi - lo) = 1) by (apply Rinv_r; lra).
  unfold Rdiv. nra.
Qed.

Lemma ratio_range (self : t) : 0 <= compute_free_cooling_ratio self <= 1.
Proof.
  unfold compute_free_cooling_ratio.
  destruct (Rle_dec _ _); [ lra | ].
  destruct (Rge_dec _ _); [ lra | ].
  assert (0 < 1 - (outdoor_temp self - free_cooling_threshold self)
                  / (target_temp self - free_cooling_threshold self) < 1)
    by (apply interpolation_strict; lra).
  lra.
Qed.

(** X6. For every configuration the free-cooling ratio lies within
    [0, 1]; it is 1 exactly when the outdoor temperature does not exceed
    the free-cooling threshold, and 0 exactly when the outdoor temperature
    exceeds the threshold and is at least the target temperature. *)
Theorem free_cooling_ratio_range (self : t) :
  0 <= compute_free_cooling_ratio self <= 1
  /\ (compute_free_cooling_ratio self = 1
      <-> outdoor_temp self <= free_cooling_threshold self)
  /\ (compute_free_cooling_ratio self = 0
      <-> free_cooling_threshold self < outdoor_temp self
          /\ outdoor_temp self >= target_temp self).
Proof.
  split; [ apply ratio_range | ].
  unfold compute_free_cooling_ratio.
  destruct (Rle_dec _ _) as [H1 | H1].
  - split; split; intros; lra.
  - destruct (Rge_dec _ _) as [H2 | H2].
    + split; split; intros; lra.
    + assert (0 < 1 - (outdoor_temp self - free_cooling_threshold self)
                      / (target_temp self - free_cooling_threshold self) < 1)
        by (apply interpolation_strict; lra).
      split; split; intros; lra.
Qed.

Lemma cooling_power_nonneg (self : t) (heat_load_btu_hr : R) (m : mode) :
  0 <= heat_load_btu_hr -> 0 < chiller_cop self ->
  0 <= fan_pump_overhead self ->
  0 <= compute_cooling_power self heat_load_btu_hr (Some m).
Proof.
  intros Hh Hc Ho.
  pose proof (ratio_range self) as Hr.
  assert (Hi : 0 < / chiller_cop self) by (apply Rinv_0_lt_compat; lra).
  unfold compute_cooling_power.
  set (r := compute_free_cooling_ratio self) in *. clearbody r.
  assert (Hk : 0 <= heat_load_btu_hr / 3412.14) by lra.
  set (q := heat_load_btu_hr / 3412.14) in *. clearbody q.
  assert (0 <= q * (1 - r)) by nra.
  assert (0 <= q * fan_pump_overhead self) by nra.
  destruct m; unfold Rdiv; nra.
Qed.

Lemma compute_pue_ge_1 (it_power_kw cooling_power_kw : R) :
  0 <= cooling_power_kw -> compute_pue it_power_kw cooling_power_kw >= 1.
Proof.
  intros Hc. unfold compute_pue. destruct (Rle_dec it_power_kw 0); [ lra | ].
  assert (Hi : 0 < / it_power_kw) by (apply Rinv_0_lt_compat; lra).
  assert (Hone : it_power_kw * / it_power_kw = 1) by (apply Rinv_r; lra).
  unfold Rdiv. nra.
Qed.

(** X7. For a non-negative heat load, a positive chiller COP and a
    non-negative fan overhead, the cooling power is non-negative in every
    mode and the hybrid mode never draws more than the mechanical mode;
    without a mode argument the model's own mode is used; the power is
    proportional to the heat load. *)
Theorem compute_cooling_power_order (self : t) (heat_load_btu_hr : R) :
  0 <= heat_load_btu_hr -> 0 < chiller_cop self ->
  0 <= fan_pump_overhead self ->
  0 <= compute_cooling_power self heat_load_btu_hr (Some MODE_FREE)
  /\ 0 <= compute_cooling_power self heat_load_btu_hr (Some MODE_HYBRID)
       <= compute_cooling_power self heat_load_btu_hr (Some MODE_MECHANICAL)
  /\ compute_cooling_power self heat_load_btu_hr None
     = compute_cooling_power self heat_load_btu_hr
         (Some (determine_cooling_mode self))
  /\ (forall (k : R) (m : option mode),
        compute_cooling_power self (k * heat_load_btu_hr) m
        = k * compute_cooling_power self heat_load_btu_hr m).
Proof.
  intros Hh Hc Ho.
  split; [ now apply cooling_power_nonneg | ].
  split; [ split; [ now apply cooling_power_nonneg | ] | ].
  - pose proof (ratio_range self) as Hr.
    assert (Hi : 0 < / chiller_cop self) by (apply Rinv_0_lt_compat; lra).
    unfold compute_cooling_power.
    set (r := compute_free_cooling_ratio self) in *. clearbody r.
    assert (Hk : 0 <= heat_load_btu_hr / 3412.14) by lra.
    set (q := heat_load_btu_hr / 3412.14) in *. clearbody q.
    unfold Rdiv.
    set (i := / chiller_cop self) in *. clearbody i.
    assert (0 <= q * i) by nra.
    nra.
  - split; [ reflexivity | ].
    intros k m. unfold compute_cooling_power.
    destruct m as [m | ]; [ destruct m | destruct (determine_cooling_mode self) ];
      unfold Rdiv; lra.
Qed.

Lemma compute_cooling_power_order_witness :
  let self := init Config.empty_cooling in
  compute_cooling_power self 1000 (Some MODE_HYBRID)
  <= compute_cooling_power self 1000 (Some MODE_MECHANICAL).
Proof.
  intros self.
  apply (compute_cooling_power_order self 1000); cbn; lra.
Defined.

(** X8. [update_thermal_state] keeps no memory of the previous
    temperature: two models with the same thermal mass and target end at
    the same temperature. A non-positive thermal mass gives exactly the
    target temperature; a positive one, with non-negative heat and time
    step, a temperature not below the target. Mode and cooling power are
    untouched, and repeating the call changes nothing. *)
Theorem update_thermal_state_memoryless (self : t) (heat_load_btu_hr dt : R) :
  let self' := update_thermal_state self heat_load_btu_hr dt in
  (forall other : t,
      thermal_mass other = thermal_mass self ->
      target_temp other = target_temp self ->
      current_temp (update_thermal_state other heat_load_btu_hr dt)
      = current_temp self')
  /\ (thermal_mass self <= 0 -> current_temp self' = target_temp self)
  /\ (0 < thermal_mass self -> 0 <= heat_load_btu_hr -> 0 <= dt ->
      target_temp self <= current_temp self')
  /\ current_mode self' = current_mode self
  /\ current_cooling_power_kw self' = current_cooling_power_kw self
  /\ update_thermal_state self' heat_load_btu_hr dt = self'.
Proof.
  cbn zeta. unfold update_thermal_state. cbn.
  split; [ intros other -> ->; reflexivity | ].
  split.
  - intros H. destruct (Rgt_dec _ _); lra.
  - split; [ | auto ].
    intros Hm Hh Hdt. destruct (Rgt_dec _ _); [ | lra ].
    assert (Hi : 0 < / thermal_mass self) by (apply Rinv_0_lt_compat; lra).
    assert (0 <= heat_load_btu_hr * (dt / 3600.0)) by
      (apply Rmult_le_pos; lra).
    unfold Rdiv at 1. nra.
Qed.

Lemma update_thermal_state_memoryless_witness :
  let self := init Config.empty_cooling in
  22 <= current_temp (update_thermal_state self 1000 300).
Proof.
  intros self.
  apply (update_thermal_state_memoryless self 1000 300); cbn; lra.
Defined.

(** X9. After [update] the state dictionary is consistent: its cooling
    power is the returned one, computed for the model's own mode; its mode
    is free exactly when its free-cooling ratio is at least 0.95 and
    mechanical exactly when it is at most 0.1; outdoor temperature and
    supply setpoint are untouched; its PUE is still the one held before
    the update. *)
Theorem update_state_consistent (self : t) (dt heat_load_btu_hr : R) :
  let st := get_state (fst (update self dt heat_load_btu_hr)) in
  st_cooling_power_kw st = snd (update self dt heat_load_btu_hr)
  /\ st_cooling_power_kw st = compute_cooling_power self heat_load_btu_hr None
  /\ (st_mode st = MODE_FREE <-> st_free_cooling_ratio st >= 0.95)
  /\ (st_mode st = MODE_MECHANICAL <-> st_free_cooling_ratio st <= 0.1)
  /\ st_outdoor_temp_c st = outdoor_temp self
  /\ st_supply_temp_c st = supply_temp_setpoint self
  /\ st_pue st = current_pue self.
Proof.
  cbn zeta. cbn.
  split; [ reflexivity | ]. split; [ reflexivity | ].
  change (compute_free_cooling_ratio _) with (compute_free_cooling_ratio self).
  unfold determine_cooling_mode.
  set (r := compute_free_cooling_ratio self).
  destruct (Rge_dec r 0.95); [ | destruct (Rgt_dec r 0.1) ];
    repeat split; intros; try discriminate; try reflexivity; try lra.
Qed.

(** X10. After [update] with a non-negative heat load on a model of
    positive COP and non-negative fan overhead, [compute_current_pue]
    returns, for any IT power, a PUE of at least 1 computed from the
    cooling power of that update, and stores it. *)
Theorem compute_current_pue_after_update
    (self : t) (dt heat_load_btu_hr it_power_kw : R) :
  0 <= heat_load_btu_hr -> 0 < chiller_cop self ->
  0 <= fan_pump_overhead self ->
  let self1 := fst (update self dt heat_load_btu_hr) in
  let self2 := fst (compute_current_pue self1 it_power_kw) in
  let pue := snd (compute_current_pue self1 it_power_kw) in
  pue >= 1
  /\ pue = compute_pue it_power_kw (snd (update self dt heat_load_btu_hr))
  /\ current_pue self2 = pue
  /\ st_pue (get_state self2) = pue
  /\ current_mode self2 = current_mode self1.
Proof.
  intros Hh Hc Ho. cbn zeta.
  assert (E : snd (update self dt heat_load_btu_hr)
              = compute_cooling_power self heat_load_btu_hr
                  (Some (determine_cooling_mode self))) by reflexivity.
  split; [ | repeat split ].
  change (snd (compute_current_pue (fst (update self dt heat_load_btu_hr))
                 it_power_kw))
    with (compute_pue it_power_kw (snd (update self dt heat_load_btu_hr))).
  rewrite E. apply compute_pue_ge_1. now apply cooling_power_nonneg.
Qed.

Lemma compute_current_pue_after_update_witness :
  let self := init Config.empty_cooling in
  snd (compute_current_pue (fst (update self 300 1000)) 200) >= 1.
Proof.
  intros self.
  apply (compute_current_pue_after_update self 300 1000 200); cbn; lra.
Defined.

End CoolingMore.

(** ** Grid signal monitor: profiles, stress, clock and forecast *)

Section GridMore.

Import GridSignalMonitor.

Lemma hour_of_range (timestamp : Z) : (0 <= hour_of timestamp < 24)%Z.
Proof. unfold hour_of. apply Z.mod_pos_bound. lia. Qed.

Lemma hour_of_next_day (timestamp : Z) :
  hour_of (timestamp + 86400) = hour_of timestamp.
Proof.
  unfold hour_of.
  replace (timestamp + 86400)%Z with (timestamp + 24 * 3600)%Z by lia.
  rewrite Z.div_add by lia.
  replace (timestamp / 3600 + 24)%Z with (timestamp / 3600 + 1 * 24)%Z by lia.
  apply Z_mod_plus_full.
Qed.

Lemma length_hours : length hours = 24%nat.
Proof. reflexivity. Qed.

(** Indexing a profile computed hour by hour. *)
Lemma at_hour_hours (f : Z -> R) (h : Z) :
  (0 <= h < 24)%Z -> at_hour (map f hours) h = f h.
Proof.
  intros H. unfold at_hour.
  rewrite nth_indep with (d' := f 0%Z)
    by (rewrite length_map, length_hours; lia).
  rewrite map_nth. f_equal. unfold hours.
  rewrite nth_indep with (d' := Z.of_nat 0)
    by (rewrite length_map, length_seq; lia).
  rewrite map_nth, seq_nth by lia. lia.
Qed.

Lemma at_hour_map (g : R -> R) (profile : list R) (h : Z) :
  (Z.to_nat h < length profile)%nat ->
  at_hour (map g profile) h = g (at_hour profile h).
Proof.
  intros H. unfold at_hour.
  rewrite nth_indep with (d' := g 0) by (rewrite length_map; exact H).
  apply map_nth.
Qed.

Lemma length_renewable_profile : length _generate_renewable_profile = 24%nat.
Proof. unfold _generate_renewable_profile. now rewrite length_map. Qed.

Lemma renewable_at_range (h : Z) :
  (0 <= h < 24)%Z -> 0 <= at_hour _generate_renewable_profile h <= 1.
Proof.
  intros H. unfold _generate_renewable_profile.
  rewrite at_hour_hours by exact H. apply np_clip_range.
Qed.

(** X11. The three profiles of a constructed monitor have 24 entries; at
    every hour of the day the renewable fraction lies within [0, 1], and
    the carbon intensity is 500 minus 450 times the renewable fraction,
    hence within [50, 500]. *)
Theorem grid_profiles_bounds (config : Config.grid_t) (now h : Z) :
  (0 <= h < 24)%Z ->
  let g := init config now in
  (length (renewable_profile g) = 24%nat
   /\ length (price_profile g) = 24%nat
   /\ length (carbon_profile g) = 24%nat)
  /\ 0 <= at_hour (renewable_profile g) h <= 1
  /\ at_hour (carbon_profile g) h = 500 - 450 * at_hour (renewable_profile g) h
  /\ 50 <= at_hour (carbon_profile g) h <= 500.
Proof.
  intros H g. cbn [g init renewable_profile price_profile carbon_profile].
  assert (Hc : at_hour (_generate_carbon_profile _generate_renewable_profile) h
               = 500 - 450 * at_hour _generate_renewable_profile h).
  { unfold _generate_carbon_profile.
    rewrite at_hour_map by (rewrite length_renewable_profile; lia). lra. }
  pose proof (renewable_at_range h H) as Hr.
  split.
  - unfold _generate_carbon_profile, _generate_price_profile.
    rewrite !length_map, length_renewable_profile, length_hours. auto.
  - split; [ exact Hr | ]. split; [ exact Hc | ]. rewrite Hc. lra.
Qed.

Lemma grid_profiles_bounds_witness :
  50 <= at_hour (carbon_profile (init Config.empty_grid 0)) 12 <= 500.
Proof.
  apply (grid_profiles_bounds Config.empty_grid 0 12). lia.
Defined.

(** The solar term vanishes from 18:00 to 06:59. *)
Lemma solar_night (h : Z) :
  (0 <= h <= 6)%Z \/ (18 <= h < 24)%Z ->
  Rmax 0 (sin ((IZR h - 6) * PI / 12)) = 0.
Proof.
  intros H. pose proof PI_RGT_0 as Hpi.
  assert (Hs : sin ((IZR h - 6) * PI / 12) <= 0).
  { destruct H as [[H0 H6] | [H18 H24]].
    - apply IZR_le in H0, H6.
      replace ((IZR h - 6) * PI / 12) with (- ((6 - IZR h) * PI / 12)) by lra.
      rewrite sin_neg.
      assert (0 <= sin ((6 - IZR h) * PI / 12)); [ | lra ].
      apply sin_ge_0; nra.
    - apply IZR_le in H18. apply IZR_lt in H24.
      apply sin_le_0; nra. }
  unfold Rmax. destruct (Rle_dec 0 _); lra.
Qed.

(** X12. From 19:00 to 06:59 the solar term of a constructed monitor is
    nil, so that the renewable fraction is 0.4 times the wind term
    [0.4 + 0.2 * sin (h * pi / 12 + pi)] and stays at most 0.24, below the
    default low threshold of the controller; at noon it is at least 0.75,
    above the default high threshold. *)
Theorem renewable_night_and_noon (config : Config.grid_t) (now : Z) :
  let g := init config now in
  (forall h : Z,
      (0 <= h <= 6)%Z \/ (19 <= h < 24)%Z ->
      at_hour (renewable_profile g) h
      = 0.4 * (0.4 + 0.2 * sin (IZR h * PI / 12 + PI))
      /\ at_hour (renewable_profile g) h <= 0.24)
  /\ 0.75 <= at_hour (renewable_profile g) 12.
Proof.
  cbn zeta. cbn [init renewable_profile]. unfold _generate_renewable_profile.
  split.
  - intros h H. rewrite at_hour_hours by lia.
    rewrite solar_night by lia.
    pose proof (SIN_bound (IZR h * PI / 12 + PI)) as Hb.
    rewrite np_clip_id by lra. split; lra.
  - rewrite at_hour_hours by lia.
    replace ((12 - 6) * PI / 12) with (PI / 2) by lra.
    replace (12 * PI / 12 + PI) with (2 * PI) by lra.
    rewrite sin_PI2, sin_2PI.
    unfold Rmax. destruct (Rle_dec 0 1); [ | lra ].
    rewrite np_clip_id by lra. lra.
Qed.

Lemma renewable_night_and_noon_witness :
  at_hour (renewable_profile (init Config.empty_grid 0)) 0 <= 0.24.
Proof.
  apply (proj1 (renewable_night_and_noon Config.empty_grid 0) 0%Z). lia.
Defined.

(** X13. At every hour the price of a constructed monitor is one of three
    levels: base times the peak multiplier from 16:00 to 20:59, base times
    1.3 from 12:00 to 15:59 and from 21:00 to 22:59, the base price
    otherwise; with a non-negative base price and a peak multiplier of at
    least 1.3 it lies between the base price and the peak price. *)
Theorem price_profile_levels (config : Config.grid_t) (now h : Z) :
  (0 <= h < 24)%Z ->
  let g := init config now in
  let p := at_hour (price_profile g) h in
  ((16 <= h < 21)%Z -> p = base_price g * price_multiplier_peak g)
  /\ ((12 <= h < 16)%Z \/ (21 <= h < 23)%Z -> p = base_price g * 1.3)
  /\ ((h < 12)%Z \/ h = 23%Z -> p = base_price g)
  /\ (0 <= base_price g -> 1.3 <= price_multiplier_peak g ->
      base_price g <= p <= base_price g * price_multiplier_peak g).
Proof.
  intros H g p. subst p. cbn [g init price_profile base_price
                               price_multiplier_peak].
  set (b := get (Config.base_price_per_kwh config) 0.12).
  set (m := get (Config.price_multiplier_peak config) 2.0).
  unfold _generate_price_profile. rewrite at_hour_hours by exact H.
  destruct (Z.leb_spec 16 h), (Z.ltb_spec h 21), (Z.leb_spec 12 h),
    (Z.ltb_spec h 16), (Z.leb_spec 21 h), (Z.ltb_spec h 23);
    cbn [andb orb]; try lia;
    (split; [ intros; try lia; try lra
            | split; [ intros; try lia; try lra
                     | split; [ intros; try lia; try lra | intros; nra ] ] ]).
Qed.

Lemma price_profile_levels_witness :
  at_hour (price_profile (init Config.empty_grid 0)) 18 = 0.12 * 2.0.
Proof.
  apply (price_profile_levels Config.empty_grid 0 18); lia.
Defined.

End GridMore.

Section GridDynamics.

Import GridSignalMonitor.

(** X14. For a constructed monitor and an hour of the day, the stress
    level lies within [0, 1] whatever the random draw is. For a draw
    within [-0.1, 0.1] it is at most 0.3 off-peak, at most 0.5 in the
    shoulder hours and between 0.25 and 0.8 in the peak hours 16:00 to
    20:59: a stress of 0.7 or more can only occur in the peak hours. *)
Theorem stress_level_bounds (config : Config.grid_t) (now h : Z) (u : R) :
  (0 <= h < 24)%Z ->
  let g := init config now in
  let stress := compute_stress_level g h u in
  0 <= stress <= 1
  /\ (-0.1 <= u <= 0.1 ->
      ((h < 12)%Z \/ h = 23%Z -> stress <= 0.3)
      /\ ((12 <= h < 16)%Z \/ (21 <= h < 23)%Z -> stress <= 0.5)
      /\ ((16 <= h < 21)%Z -> 0.25 <= stress <= 0.8)
      /\ (stress >= 0.7 -> (16 <= h < 21)%Z)).
Proof.
  intros H g stress. subst stress. unfold compute_stress_level.
  split; [ apply np_clip_range | ].
  intros Hu. cbn [g init renewable_profile].
  pose proof (renewable_at_range h H) as Hr.
  set (r := at_hour _generate_renewable_profile h) in *. clearbody r.
  unfold np_clip, Rmin, Rmax.
  destruct (Z.leb_spec 16 h), (Z.ltb_spec h 21), (Z.leb_spec 12 h),
    (Z.ltb_spec h 16), (Z.leb_spec 21 h), (Z.ltb_spec h 23);
    cbn [andb orb]; try lia;
    match goal with
    | |- context [Rle_dec ?a 0] => destruct (Rle_dec a 0)
    end;
    match goal with
    | |- context [Rle_dec ?a 1] => destruct (Rle_dec a 1)
    end;
    (split; [ intros; try lia; try lra
            | split; [ intros; try lia; try lra
                     | split; [ intros; try lia; try lra
                              | intros; try lia; try lra ] ] ]).
Qed.

Lemma stress_level_bounds_witness :
  compute_stress_level (init Config.empty_grid 0) 3 0.05 <= 0.3.
Proof.
  destruct (stress_level_bounds Config.empty_grid 0 3 0.05) as [_ H];
    [ lia | ].
  apply H; [ lra | lia ].
Defined.

(** X15. [update] advances the monitor's clock by [dt] and returns the
    dictionary it stores as current state: its timestamp is the new clock,
    its hour lies in 0..23, its signals are the profile entries at that
    hour and it has no outdoor temperature yet. The profiles and the start
    time are untouched. Two updates in a row leave the monitor as one
    update by the sum of the steps with the second draw; and a day later
    the hour and the profile signals are the same. *)
Theorem grid_update_clock (g : t) (dt : Z) (u : R) :
  let g' := fst (update g dt u) in
  let s := snd (update g dt u) in
  current_time g' = (current_time g + dt)%Z
  /\ current_state g' = Some s
  /\ timestamp s = current_time g'
  /\ hour s = hour_of (current_time g')
  /\ (0 <= hour s < 24)%Z
  /\ outdoor_temp_c s = None
  /\ renewable_pct s = at_hour (renewable_profile g) (hour s)
  /\ price_per_kwh s = at_hour (price_profile g) (hour s)
  /\ carbon_intensity_gco2_kwh s = at_hour (carbon_profile g) (hour s)
  /\ grid_stress s = compute_stress_level g (hour s) u
  /\ (renewable_profile g' = renewable_profile g
      /\ price_profile g' = price_profile g
      /\ carbon_profile g' = carbon_profile g
      /\ start_time g' = start_time g)
  /\ (forall (dt2 : Z) (u2 : R), update g' dt2 u2 = update g (dt + dt2) u2)
  /\ (forall u' : R,
        let s' := snd (update g (dt + 86400) u') in
        hour s' = hour s
        /\ renewable_pct s' = renewable_pct s
        /\ price_per_kwh s' = price_per_kwh s
        /\ carbon_intensity_gco2_kwh s' = carbon_intensity_gco2_kwh s).
Proof.
  cbn zeta. unfold update, get_current_state, get_hour_of_day,
    compute_stress_level.
  cbn [fst snd get current_time set_current_time set_current_state
       current_state timestamp hour outdoor_temp_c renewable_pct price_per_kwh
       carbon_intensity_gco2_kwh grid_stress renewable_profile price_profile
       carbon_profile start_time base_price price_multiplier_peak].
  repeat (split; [ first [ reflexivity | apply hour_of_range ] | ]).
  split; [ repeat split | ].
  split.
  - intros dt2 u2. rewrite Z.add_assoc. reflexivity.
  - intros u'.
    replace (current_time g + (dt + 86400))%Z
      with (current_time g + dt + 86400)%Z by lia.
    rewrite hour_of_next_day. auto.
Qed.

(** X16. [get_renewable_forecast] returns as many values as asked for; the
    value at position [i] is the renewable profile entry at the current
    hour plus [i], wrapped around midnight, so the forecast repeats every
    24 positions and a longer forecast starts with the shorter one; for a
    constructed monitor every value lies within [0, 1]. *)
Theorem renewable_forecast_lookup (g : t) (hours_ahead : nat) :
  length (get_renewable_forecast g hours_ahead) = hours_ahead
  /\ (forall i : nat,
        (i < hours_ahead)%nat ->
        nth i (get_renewable_forecast g hours_ahead) 0
        = at_hour (renewable_profile g)
            ((hour_of (current_time g) + Z.of_nat i) mod 24))
  /\ (forall i : nat,
        (i + 24 < hours_ahead)%nat ->
        nth (i + 24) (get_renewable_forecast g hours_ahead) 0
        = nth i (get_renewable_forecast g hours_ahead) 0)
  /\ (forall (i n : nat),
        (i < hours_ahead)%nat -> (hours_ahead <= n)%nat ->
        nth i (get_renewable_forecast g n) 0
        = nth i (get_renewable_forecast g hours_ahead) 0)
  /\ (renewable_profile g = _generate_renewable_profile ->
      Forall (fun r => 0 <= r <= 1) (get_renewable_forecast g hours_ahead)).
Proof.
  assert (Hnth : forall n i : nat,
             (i < n)%nat ->
             nth i (get_renewable_forecast g n) 0
             = at_hour (renewable_profile g)
                 ((hour_of (current_time g) + Z.of_nat i) mod 24)).
  { intros n i Hi. unfold get_renewable_forecast, get_hour_of_day.
    cbn [get].
    set (f := fun i0 : nat => at_hour _ _).
    rewrite nth_indep with (d' := f 0%nat)
      by (rewrite length_map, length_seq; exact Hi).
    rewrite map_nth, seq_nth by exact Hi. reflexivity. }
  split; [ unfold get_renewable_forecast; now rewrite length_map, length_seq | ].
  split; [ intros i Hi; now apply Hnth | ].
  split.
  - intros i Hi. rewrite !Hnth by lia. f_equal.
    rewrite Nat2Z.inj_add.
    replace (hour_of (current_time g) + (Z.of_nat i + Z.of_nat 24))%Z
      with (hour_of (current_time g) + Z.of_nat i + 1 * 24)%Z by lia.
    apply Z_mod_plus_full.
  - split.
    + intros i n Hi Hn. rewrite !Hnth by lia. reflexivity.
    + intros Hp. unfold get_renewable_forecast. rewrite Hp.
      apply Forall_forall. intros r Hin.
      apply in_map_iff in Hin. destruct Hin as [i [<- _]].
      apply renewable_at_range. apply Z.mod_pos_bound. lia.
Qed.

Lemma renewable_forecast_lookup_witness :
  let g := init Config.empty_grid 0 in
  nth 1 (get_renewable_forecast g 4) 0 = at_hour (renewable_profile g) 1.
Proof.
  intros g.
  apply (proj1 (proj2 (renewable_forecast_lookup g 4)) 1%nat). lia.
Defined.

End GridDynamics.

(** ** Controller: setpoints and direction of the adjustment *)

Section ControllerMore.

Import SimpleController.

(** X17. [compute_control] always returns the base target 0.7 and stores
    the two targets it returns, leaving its parameters untouched. The
    cooling suggestion follows three bands of the outdoor temperature read
    from the grid state: free cooling with a 20 degree setpoint below 15,
    hybrid with 18 from 15 to below 25, mechanical with 16 from 25 on; when
    the grid state has no outdoor temperature, 20 degrees is assumed and
    the suggestion is hybrid with 18. *)
Theorem compute_control_setpoints
    (self : t) (sys : system_state) (gs : GridSignalMonitor.state) :
  let self' := fst (compute_control self sys gs) in
  let c := snd (compute_control self sys gs) in
  let temp := get (GridSignalMonitor.outdoor_temp_c gs) 20 in
  workload_base c = 0.7
  /\ st_target_base_util (get_state self') = workload_base c
  /\ st_target_flex_util (get_state self') = workload_flex c
  /\ (adjustment_rate self' = adjustment_rate self
      /\ renewable_threshold_high self' = renewable_threshold_high self
      /\ renewable_threshold_low self' = renewable_threshold_low self
      /\ stress_threshold_high self' = stress_threshold_high self)
  /\ (temp < 15 -> mode c = CoolingModel.MODE_FREE /\ supply_temp c = 20)
  /\ (15 <= temp < 25 -> mode c = CoolingModel.MODE_HYBRID /\ supply_temp c = 18)
  /\ (25 <= temp -> mode c = CoolingModel.MODE_MECHANICAL /\ supply_temp c = 16)
  /\ (GridSignalMonitor.outdoor_temp_c gs = None ->
      mode c = CoolingModel.MODE_HYBRID /\ supply_temp c = 18).
Proof.
  cbn zeta. unfold compute_control.
  destruct (GridSignalMonitor.outdoor_temp_c gs) as [temp | ] eqn:Et; cbn [get].
  - destruct (Rlt_dec temp 15); [ | destruct (Rlt_dec temp 25) ]; cbn;
      repeat split; intros; try reflexivity; try lra; discriminate.
  - destruct (Rlt_dec 20 15); [ lra | ].
    destruct (Rlt_dec 20 25); [ | lra ].
    cbn. repeat split; intros; try reflexivity; lra.
Qed.

Lemma compute_control_setpoints_witness :
  let sys :=
    {| ss_it_load := ITLoadModel.mk_state 0.7 0.3 0.5 0 0;
       ss_cooling := CoolingModel.get_state (CoolingModel.init Config.empty_cooling);
       ss_grid := None;
       ss_controller := get_state (init Config.empty_controller);
       ss_time := 0%Z |} in
  let gs := GridSignalMonitor.mk_state 300 0 0.16 0.2 0.12 428 (Some 5) in
  supply_temp (snd (compute_control (init Config.empty_controller) sys gs)) = 20.
Proof.
  intros sys gs.
  apply (compute_control_setpoints (init Config.empty_controller) sys gs).
  cbn. lra.
Defined.

Lemma Rgeb_true (x y : R) : Rgeb x y = true <-> x >= y.
Proof. unfold Rgeb. destruct (Rge_dec x y); split; intros; auto; discriminate. Qed.

Lemma Rltb_true (x y : R) : Rltb x y = true <-> x < y.
Proof. unfold Rltb. destruct (Rlt_dec x y); split; intros; auto; discriminate. Qed.

Lemma Rleb_true (x y : R) : Rleb x y = true <-> x <= y.
Proof. unfold Rleb. destruct (Rle_dec x y); split; intros; auto; discriminate. Qed.

(** The flex target as a function of the grid conditions. *)
Lemma compute_control_flex_cases
    (self : t) (sys : system_state) (gs : GridSignalMonitor.state) :
  workload_flex (snd (compute_control self sys gs))
  = if Rgeb (GridSignalMonitor.renewable_pct gs) (renewable_threshold_high self)
       && Rltb (GridSignalMonitor.grid_stress gs) 0.5
    then Rmin 1.0 (ITLoadModel.st_flex_workload (ss_it_load sys)
                   + adjustment_rate self)
    else if Rleb (GridSignalMonitor.renewable_pct gs)
                 (renewable_threshold_low self)
            || Rgeb (GridSignalMonitor.grid_stress gs)
                    (stress_threshold_high self)
    then Rmax 0.1 (ITLoadModel.st_flex_workload (ss_it_load sys)
                   - adjustment_rate self)
    else ITLoadModel.st_flex_workload (ss_it_load sys).
Proof.
  unfold compute_control.
  destruct (Rlt_dec _ 15); [ | destruct (Rlt_dec _ 25) ]; reflexivity.
Qed.

(** X18. With a non-negative adjustment rate: when the renewable fraction
    reaches the high threshold and the stress is below 0.5 the flex target
    is the current level plus the rate, capped at 1, and never below a
    current level of at most 1; otherwise, when the renewable fraction is
    at most the low threshold or the stress reaches the high-stress
    threshold, it is the current level minus the rate, floored at 0.1, and
    never above a current level of at least 0.1; in all other conditions it
    is the current level. The good-conditions rule has priority. *)
Theorem compute_control_direction
    (self : t) (sys : system_state) (gs : GridSignalMonitor.state) :
  let current_flex := ITLoadModel.st_flex_workload (ss_it_load sys) in
  let rate := adjustment_rate self in
  let renewable := GridSignalMonitor.renewable_pct gs in
  let stress := GridSignalMonitor.grid_stress gs in
  let flex_target := workload_flex (snd (compute_control self sys gs)) in
  0 <= rate ->
  (renewable >= renewable_threshold_high self -> stress < 0.5 ->
   flex_target = Rmin 1 (current_flex + rate)
   /\ (current_flex <= 1 -> current_flex <= flex_target <= 1))
  /\ (~ (renewable >= renewable_threshold_high self /\ stress < 0.5) ->
      renewable <= renewable_threshold_low self
      \/ stress >= stress_threshold_high self ->
      flex_target = Rmax 0.1 (current_flex - rate)
      /\ (0.1 <= current_flex -> 0.1 <= flex_target <= current_flex))
  /\ (~ (renewable >= renewable_threshold_high self /\ stress < 0.5) ->
      renewable > renewable_threshold_low self ->
      stress < stress_threshold_high self ->
      flex_target = current_flex).
Proof.
  intros cur rate ren stress tgt Hrate. subst tgt.
  rewrite compute_control_flex_cases. fold cur rate ren stress.
  split; [ | split ].
  - intros H1 H2.
    rewrite (proj2 (Rgeb_true _ _) H1), (proj2 (Rltb_true _ _) H2).
    cbn [andb]. replace 1.0 with 1 by lra.
    split; [ reflexivity | ].
    intros Hc. unfold Rmin. destruct (Rle_dec 1 (cur + rate)); lra.
  - intros Hn Hp.
    destruct (Rgeb ren (renewable_threshold_high self) && Rltb stress 0.5)
      eqn:Eg.
    { exfalso. apply Hn. apply andb_prop in Eg. destruct Eg as [E1 E2].
      split; [ now apply Rgeb_true | now apply Rltb_true ]. }
    assert (Ep : Rleb ren (renewable_threshold_low self)
                 || Rgeb stress (stress_threshold_high self) = true).
    { apply orb_true_iff. destruct Hp as [Hp | Hp];
        [ left; now apply Rleb_true | right; now apply Rgeb_true ]. }
    rewrite Ep. split; [ reflexivity | ].
    intros Hc. unfold Rmax. destruct (Rle_dec 0.1 (cur - rate)); lra.
  - intros Hn Hlow Hs.
    destruct (Rgeb ren (renewable_threshold_high self) && Rltb stress 0.5)
      eqn:Eg.
    { exfalso. apply Hn. apply andb_prop in Eg. destruct Eg as [E1 E2].
      split; [ now apply Rgeb_true | now apply Rltb_true ]. }
    destruct (Rleb ren (renewable_threshold_low self)
              || Rgeb stress (stress_threshold_high self)) eqn:Ep;
      [ | reflexivity ].
    exfalso. apply orb_true_iff in Ep. destruct Ep as [E | E].
    + apply Rleb_true in E. lra.
    + apply Rgeb_true in E. lra.
Qed.

Lemma compute_control_direction_witness :
  let sys :=
    {| ss_it_load := ITLoadModel.mk_state 0.7 0.3 0.5 0 0;
       ss_cooling := CoolingModel.get_state (CoolingModel.init Config.empty_cooling);
       ss_grid := None;
       ss_controller := get_state (init Config.empty_controller);
       ss_time := 0%Z |} in
  let gs := GridSignalMonitor.mk_state 43200 12 0.76 0.25 0.156 158 (Some 25) in
  workload_flex (snd (compute_control (init Config.empty_controller) sys gs))
  = Rmin 1 (0.3 + 0.2).
Proof.
  intros sys gs.
  apply (compute_control_direction (init Config.empty_controller) sys gs);
    cbn; lra.
Defined.

(** X19. With the default thresholds of the cooling model (free cooling
    up to 15 degrees, target 22 degrees), the mode suggested by the
    controller for an outdoor temperature coincides with the mode the
    cooling model selects for it exactly below 15 degrees, strictly between
    15.35 and 21.3 degrees, and from 25 degrees on; elsewhere the two
    disagree. *)
Theorem mode_suggestion_agreement
    (self : t) (sys : system_state) (gs : GridSignalMonitor.state)
    (cooling : CoolingModel.t) (temp : R) :
  CoolingModel.free_cooling_threshold cooling = 15 ->
  CoolingModel.target_temp cooling = 22 ->
  CoolingModel.outdoor_temp cooling = temp ->
  GridSignalMonitor.outdoor_temp_c gs = Some temp ->
  mode (snd (compute_control self sys gs))
  = CoolingModel.determine_cooling_mode cooling
  <-> temp < 15 \/ 15.35 < temp < 21.3 \/ 25 <= temp.
Proof.
  intros Hthr Htgt Hout Hgs.
  unfold compute_control, CoolingModel.determine_cooling_mode,
    CoolingModel.compute_free_cooling_ratio.
  rewrite Hthr, Htgt, Hout, Hgs. cbn [get].
  replace (22 - 15) with 7 by lra.
  destruct (Rlt_dec temp 15); [ | destruct (Rlt_dec temp 25) ];
    cbn [snd mode];
    destruct (Rle_dec temp 15); try lra;
    destruct (Rge_dec temp 22); try lra;
    repeat match goal with
           | |- context [Rge_dec ?a ?b] => destruct (Rge_dec a b)
           | |- context [Rgt_dec ?a ?b] => destruct (Rgt_dec a b)
           end;
    split; intros; try discriminate; try reflexivity; try lra.
Qed.

Lemma mode_suggestion_agreement_witness :
  let sys :=
    {| ss_it_load := ITLoadModel.mk_state 0.7 0.3 0.5 0 0;
       ss_cooling := CoolingModel.get_state (CoolingModel.init Config.empty_cooling);
       ss_grid := None;
       ss_controller := get_state (init Config.empty_controller);
       ss_time := 0%Z |} in
  let gs := GridSignalMonitor.mk_state 300 0 0.16 0.2 0.12 428 (Some 15) in
  let cooling :=
    CoolingModel.set_outdoor_temp (CoolingModel.init Config.empty_cooling) 15 in
  mode (snd (compute_control (init Config.empty_controller) sys gs))
  <> CoolingModel.determine_cooling_mode cooling.
Proof.
  intros sys gs cooling E.
  apply (mode_suggestion_agreement (init Config.empty_controller) sys gs
           cooling 15) in E; try reflexivity.
  lra.
Defined.

End ControllerMore.

(** ** Orchestrator: what a step records *)

Section StepRecord.

Import DataCenterOptimizer.

Lemma compute_control_base
    (ctl : SimpleController.t) (sys : SimpleController.system_state)
    (gs : GridSignalMonitor.state) :
  SimpleController.workload_base (snd (SimpleController.compute_control ctl sys gs))
  = 0.7.
Proof.
  unfold SimpleController.compute_control.
  destruct (Rlt_dec _ 15); [ | destruct (Rlt_dec _ 25) ]; reflexivity.
Qed.

Lemma np_clip_base : np_clip 0.7 0 1 = 0.7.
Proof. apply np_clip_id. lra. Qed.

(** The record appended by a step that returns, and the metrics it
    returns, in terms of the IT power [it] and the cooling power [cool]
    of the step. *)
Lemma step_from_record (gs : GridSignalMonitor.state) (o : t) :
  ITLoadModel.total_capacity_kw (it_load o) <> 0 ->
  let o' := fst (step_from gs o) in
  let temp := diurnal_temp (hour_of (current_time o)) in
  let gs1 := GridSignalMonitor.set_outdoor_temp_c gs temp in
  let cm := CoolingModel.set_outdoor_temp (cooling o) temp in
  let mode := CoolingModel.determine_cooling_mode cm in
  exists it cool : R,
    ITLoadModel.compute_power (it_load o') = Ok it
    /\ ITLoadModel.current_power_kw (it_load o') = it
    /\ ITLoadModel.base_workload (it_load o') = 0.7
    /\ cool = CoolingModel.compute_cooling_power cm (it * 3412.14) (Some mode)
    /\ CoolingModel.current_cooling_power_kw (cooling o') = cool
    /\ CoolingModel.current_pue (cooling o') = CoolingModel.compute_pue it cool
    /\ history o'
       = record_metrics (history o) (current_time o) it cool (it + cool)
           (CoolingModel.compute_pue it cool) 0.7
           (ITLoadModel.flex_workload (it_load o')) gs1 mode
           ((it + cool) * (IZR (timestep o) / 3600.0)
            * GridSignalMonitor.price_per_kwh gs)
           ((it + cool) * (IZR (timestep o) / 3600.0)
            * GridSignalMonitor.carbon_intensity_gco2_kwh gs)
    /\ snd (step_from gs o)
       = Ok {| m_time := (current_time o + timestep o)%Z;
               m_it_power_kw := it;
               m_cooling_power_kw := cool;
               m_total_power_kw := it + cool;
               m_pue := CoolingModel.compute_pue it cool;
               m_cost := (it + cool) * (IZR (timestep o) / 3600.0)
                         * GridSignalMonitor.price_per_kwh gs;
               m_carbon_g := (it + cool) * (IZR (timestep o) / 3600.0)
                             * GridSignalMonitor.carbon_intensity_gco2_kwh gs |}.
Proof.
  intros Hcap. cbn zeta. unfold step_from, inject_outdoor_temp.
  cbn [fst snd controller config it_load cooling grid timestep current_time
       history].
  fold (diurnal_temp (hour_of (current_time o))).
  match goal with
  | |- context [get_system_state ?a] =>
      destruct (get_system_state_ok a Hcap) as [sys ->]
  end.
  match goal with
  | |- context [SimpleController.compute_control ?a ?b ?c] =>
      pose proof (compute_control_base a b c) as Hbase;
      destruct (SimpleController.compute_control a b c) as [ctl c0]
  end.
  cbn [snd] in Hbase.
  unfold apply_control, ITLoadModel.update.
  cbn [fst snd controller config it_load cooling grid timestep current_time
       history].
  set (it1 := ITLoadModel.set_workload (it_load o) _ _).
  rewrite (compute_power_nonzero it1) by exact Hcap.
  cbn [fst snd controller config it_load cooling grid timestep current_time
       history CoolingModel.update CoolingModel.compute_current_pue].
  do 2 eexists.
  split; [ apply compute_power_nonzero; exact Hcap | ].
  split; [ reflexivity | ].
  split; [ cbn; rewrite Hbase; apply np_clip_base | ].
  split; [ reflexivity | ].
  split; [ reflexivity | ].
  split; [ reflexivity | ].
  split; [ | reflexivity ].
  unfold record_metrics. cbn. rewrite Hbase, np_clip_base. reflexivity.
Qed.

Lemma step_ok_capacity (u : R) (o : t) (m : metrics) :
  snd (step u o) = Ok m -> ITLoadModel.total_capacity_kw (it_load o) <> 0.
Proof.
  rewrite step_unfold. intros E Z.
  match type of E with
  | snd (step_from ?g ?a) = _ =>
      destruct (step_from_raise g a Z) as [R _]
  end.
  rewrite R in E. discriminate.
Qed.

(** The same for [step], whose grid state is the one the monitor returns. *)
Lemma step_record (u : R) (o : t) (m : metrics) :
  snd (step u o) = Ok m ->
  let o' := fst (step u o) in
  let gs := snd (GridSignalMonitor.update (grid o) (timestep o) u) in
  let temp := diurnal_temp (hour_of (current_time o)) in
  let gs1 := GridSignalMonitor.set_outdoor_temp_c gs temp in
  let cm := CoolingModel.set_outdoor_temp (cooling o) temp in
  let mode := CoolingModel.determine_cooling_mode cm in
  exists it cool : R,
    ITLoadModel.compute_power (it_load o') = Ok it
    /\ ITLoadModel.current_power_kw (it_load o') = it
    /\ ITLoadModel.base_workload (it_load o') = 0.7
    /\ cool = CoolingModel.compute_cooling_power cm (it * 3412.14) (Some mode)
    /\ CoolingModel.current_cooling_power_kw (cooling o') = cool
    /\ CoolingModel.current_pue (cooling o') = CoolingModel.compute_pue it cool
    /\ history o'
       = record_metrics (history o) (current_time o) it cool (it + cool)
           (CoolingModel.compute_pue it cool) 0.7
           (ITLoadModel.flex_workload (it_load o')) gs1 mode
           ((it + cool) * (IZR (timestep o) / 3600.0)
            * GridSignalMonitor.price_per_kwh gs)
           ((it + cool) * (IZR (timestep o) / 3600.0)
            * GridSignalMonitor.carbon_intensity_gco2_kwh gs)
    /\ m = {| m_time := (current_time o + timestep o)%Z;
              m_it_power_kw := it;
              m_cooling_power_kw := cool;
              m_total_power_kw := it + cool;
              m_pue := CoolingModel.compute_pue it cool;
              m_cost := (it + cool) * (IZR (timestep o) / 3600.0)
                        * GridSignalMonitor.price_per_kwh gs;
              m_carbon_g := (it + cool) * (IZR (timestep o) / 3600.0)
                            * GridSignalMonitor.carbon_intensity_gco2_kwh gs |}.
Proof.
  intros E. pose proof (step_ok_capacity u o m E) as Hcap.
  cbn zeta. rewrite step_unfold in *.
  match type of E with
  | snd (step_from ?g ?a) = _ =>
      pose proof (step_from_record g a Hcap) as R
  end.
  cbn zeta in R.
  cbn [config it_load cooling grid controller timestep current_time history]
    in R.
  destruct R as (it & cool & R1 & R2 & R3 & R4 & R5 & R6 & R7 & R8).
  exists it, cool.
  rewrite R8 in E. injection E as <-.
  repeat (split; [ assumption | ]). reflexivity.
Qed.

Lemma last_snoc {A : Type} (l : list A) (x d : A) : last (l ++ [x]) d = x.
Proof. apply last_last. Qed.

(** X20. In a step that returns, the total power is the IT power plus the
    cooling power, the PUE is [compute_pue] of the two, and cost and carbon
    are the energy of the step times the price and the carbon intensity of
    the grid state held by the monitor. The entry appended to each power,
    PUE, cost and carbon series is the returned metric, and the models hold
    the same values; but the returned time is the clock after the step,
    one step later than the time appended to the history. *)
Theorem step_metrics_relations (u : R) (o : t) (m : metrics) :
  snd (step u o) = Ok m ->
  let o' := fst (step u o) in
  let h := history o' in
  m_total_power_kw m = m_it_power_kw m + m_cooling_power_kw m
  /\ m_pue m = CoolingModel.compute_pue (m_it_power_kw m) (m_cooling_power_kw m)
  /\ (exists gs,
        GridSignalMonitor.current_state (grid o') = Some gs
        /\ m_cost m
           = m_total_power_kw m * (IZR (timestep o) / 3600)
             * GridSignalMonitor.price_per_kwh gs
        /\ m_carbon_g m
           = m_total_power_kw m * (IZR (timestep o) / 3600)
             * GridSignalMonitor.carbon_intensity_gco2_kwh gs
        /\ last (h_price_per_kwh h) 0 = GridSignalMonitor.price_per_kwh gs
        /\ last (h_carbon_intensity h) 0
           = GridSignalMonitor.carbon_intensity_gco2_kwh gs
        /\ last (h_renewable_pct h) 0 = GridSignalMonitor.renewable_pct gs
        /\ last (h_grid_stress h) 0 = GridSignalMonitor.grid_stress gs)
  /\ (last (h_it_power_kw h) 0 = m_it_power_kw m
      /\ last (h_cooling_power_kw h) 0 = m_cooling_power_kw m
      /\ last (h_total_power_kw h) 0 = m_total_power_kw m
      /\ last (h_pue h) 0 = m_pue m
      /\ last (h_total_cost h) 0 = m_cost m
      /\ last (h_total_carbon h) 0 = m_carbon_g m)
  /\ (ITLoadModel.current_power_kw (it_load o') = m_it_power_kw m
      /\ CoolingModel.current_cooling_power_kw (cooling o') = m_cooling_power_kw m
      /\ CoolingModel.current_pue (cooling o') = m_pue m)
  /\ m_time m = current_time o'
  /\ m_time m = (last (h_time h) 0%Z + timestep o)%Z.
Proof.
  intros E. cbn zeta.
  destruct (step_record u o m E)
    as (it & cool & R1 & R2 & R3 & R4 & R5 & R6 & R7 & R8).
  pose proof (step_ok_capacity u o m E) as Hcap.
  destruct (step_ok u o Hcap) as (_ & _ & _ & T & _).
  destruct (step_outdoor_temp u o) as (_ & gs & G1 & _).
  pose proof (step_unfold u o) as U.
  match type of U with
  | _ = step_from ?g ?a => pose proof (step_from_frame g a) as F
  end.
  rewrite <- U in F. cbn zeta in F.
  cbn [config it_load cooling grid controller timestep current_time history]
    in F.
  destruct F as (_ & _ & _ & _ & _ & _ & _ & F8 & _).
  rewrite R7, R8. unfold record_metrics.
  cbn [m_time m_it_power_kw m_cooling_power_kw m_total_power_kw m_pue m_cost
       m_carbon_g h_time h_it_power_kw h_cooling_power_kw h_total_power_kw
       h_pue h_price_per_kwh h_carbon_intensity h_renewable_pct h_grid_stress
       h_total_cost h_total_carbon].
  rewrite !last_snoc.
  split; [ reflexivity | ]. split; [ reflexivity | ].
  split.
  { eexists. split; [ exact F8 | ].
    cbn. repeat split; try reflexivity; f_equal; f_equal; lra. }
  split; [ repeat split | ].
  split; [ repeat split; assumption | ].
  split; [ now rewrite T | reflexivity ].
Qed.

Lemma step_metrics_relations_witness :
  let o := init (create_default_config 0 0) 0 0 in
  exists m,
    snd (step 0 o) = Ok m
    /\ m_total_power_kw m = m_it_power_kw m + m_cooling_power_kw m
    /\ m_time m = 300%Z.
Proof.
  intros o.
  destruct (step_ok 0 o) as ([m Hm] & _); [ cbn; lra | ].
  exists m. split; [ exact Hm | ].
  destruct (step_metrics_relations 0 o m Hm) as (H1 & _ & _ & _ & _ & H6 & _).
  split; [ exact H1 | ].
  rewrite H6.
  destruct (step_ok 0 o) as (_ & _ & _ & T & _); [ cbn; lra | ].
  rewrite T. reflexivity.
Defined.

End StepRecord.

(** ** Orchestrator: cooling power, temperature and flex level of a step *)

Section StepPhysics.

Import DataCenterOptimizer.

(** The cooling parameters never change in a step, and the free-cooling
    ratio after the step is the one of the derived outdoor temperature. *)
Lemma step_cooling_frame (u : R) (o : t) :
  let o' := fst (step u o) in
  let cm := CoolingModel.set_outdoor_temp (cooling o)
              (diurnal_temp (hour_of (current_time o))) in
  CoolingModel.chiller_cop (cooling o') = CoolingModel.chiller_cop (cooling o)
  /\ CoolingModel.fan_pump_overhead (cooling o')
     = CoolingModel.fan_pump_overhead (cooling o)
  /\ CoolingModel.thermal_mass (cooling o') = CoolingModel.thermal_mass (cooling o)
  /\ CoolingModel.compute_free_cooling_ratio (cooling o')
     = CoolingModel.compute_free_cooling_ratio cm.
Proof.
  cbn zeta. rewrite step_unfold. unfold step_from, inject_outdoor_temp.
  cbn [fst snd controller config it_load cooling grid timestep current_time
       history].
  fold (diurnal_temp (hour_of (current_time o))).
  destruct (get_system_state _) as [sys | e]; [ | cbn; auto ].
  destruct (SimpleController.compute_control _ sys _) as [ctl c].
  unfold apply_control, ITLoadModel.update.
  destruct (ITLoadModel.compute_power _); cbn; auto.
Qed.

Lemma step_mode (u : R) (o : t) (m : metrics) :
  snd (step u o) = Ok m ->
  CoolingModel.current_mode (cooling (fst (step u o)))
  = CoolingModel.determine_cooling_mode
      (CoolingModel.set_outdoor_temp (cooling o)
         (diurnal_temp (hour_of (current_time o)))).
Proof.
  intros E. pose proof (step_ok_capacity u o m E) as Hcap.
  rewrite step_unfold.
  match goal with
  | |- context [step_from ?g ?a] =>
      destruct (step_from_ok g a Hcap) as (_ & _ & M & _)
  end.
  exact M.
Qed.

(** X21. In a step that returns, the cooling power is
    [compute_cooling_power] of the heat [compute_heat] gives for the IT
    power of the same step, in the mode the cooling model holds after the
    step. In free-cooling mode with a positive IT power the cooling power
    is positive and below 5 percent of the IT power, and the PUE lies
    between 1.07 and 1.09. The mode is free cooling whenever the outdoor
    temperature held by the cooling model after the step does not exceed
    its free-cooling threshold. *)
Theorem step_cooling_power_by_mode (u : R) (o : t) (m : metrics) :
  snd (step u o) = Ok m ->
  let cm := cooling (fst (step u o)) in
  let it := m_it_power_kw m in
  let cool := m_cooling_power_kw m in
  cool = CoolingModel.compute_cooling_power cm (ITLoadModel.compute_heat it)
           (Some (CoolingModel.current_mode cm))
  /\ (CoolingModel.current_mode cm = CoolingModel.MODE_FREE -> it > 0 ->
      0 < cool < 0.05 * it /\ 1.07 < m_pue m < 1.09)
  /\ (CoolingModel.outdoor_temp cm <= CoolingModel.free_cooling_threshold cm ->
      CoolingModel.current_mode cm = CoolingModel.MODE_FREE).
Proof.
  intros E. cbn zeta.
  destruct (step_record u o m E)
    as (it & cool & _ & _ & _ & R4 & _ & _ & _ & R8).
  destruct (step_cooling_frame u o) as (F1 & F2 & _ & F4).
  destruct (step_outdoor_temp u o) as [T _].
  pose proof (step_unfold u o) as U.
  match type of U with
  | _ = step_from ?g ?a =>
      destruct (step_from_frame g a) as (_ & _ & _ & _ & _ & F6 & _)
  end.
  rewrite <- U in F6.
  cbn [config it_load cooling grid controller timestep current_time history]
    in F6.
  rewrite T, F6.
  rewrite (step_mode u o m E). subst m.
  cbn [m_it_power_kw m_cooling_power_kw m_pue].
  set (cm := CoolingModel.set_outdoor_temp (cooling o) _) in *.
  assert (Hq : it * 3412.14 / 3412.14 = it) by (field; lra).
  split; [ | split ].
  - rewrite R4. unfold CoolingModel.compute_cooling_power, ITLoadModel.compute_heat.
    rewrite F1, F2, F4. reflexivity.
  - intros M Hit. rewrite M in R4. cbn in R4. rewrite Hq in R4.
    split; [ lra | ].
    rewrite R4. unfold CoolingModel.compute_pue.
    destruct (Rle_dec it 0); [ lra | ].
    assert (Hv : (it + it * 0.03 + it * 0.05) / it = 1.08).
    { apply Rmult_eq_reg_r with (r := it); [ | lra ].
      unfold Rdiv. rewrite Rmult_assoc, Rinv_l by lra. lra. }
    rewrite Hv. lra.
  - intros Ht. unfold CoolingModel.determine_cooling_mode.
    rewrite ratio_below_threshold by exact Ht.
    destruct (Rge_dec 1 0.95); [ reflexivity | lra ].
Qed.

Lemma step_cooling_power_by_mode_witness :
  let o := init (create_default_config 0 0) 0 0 in
  CoolingModel.current_mode (cooling (fst (step 0 o))) = CoolingModel.MODE_FREE.
Proof.
  intros o.
  destruct (step_ok 0 o) as ([m Hm] & _); [ cbn; lra | ].
  apply (step_cooling_power_by_mode 0 o m Hm).
  destruct (step_outdoor_temp 0 o) as [T _]. rewrite T.
  change (hour_of (current_time o)) with 0%Z.
  rewrite diurnal_temp_0.
  pose proof (step_unfold 0 o) as U.
  match type of U with
  | _ = step_from ?g ?a =>
      destruct (step_from_frame g a) as (_ & _ & _ & _ & _ & F6 & _)
  end.
  rewrite <- U in F6. rewrite F6. cbn. lra.
Defined.

Lemma diurnal_temp_range (h : Z) : 5 <= diurnal_temp h <= 25.
Proof.
  unfold diurnal_temp. pose proof (SIN_bound ((IZR h - 6) * PI / 12)). lra.
Qed.

Lemma diurnal_temp_night (h : Z) :
  (0 <= h <= 6)%Z \/ (18 <= h < 24)%Z -> diurnal_temp h <= 15.
Proof.
  intros H. pose proof (solar_night h H) as Hs. unfold diurnal_temp.
  unfold Rmax in Hs. destruct (Rle_dec 0 _) in Hs; lra.
Qed.

Lemma diurnal_temp_day (h : Z) :
  (6 <= h <= 18)%Z -> 15 <= diurnal_temp h.
Proof.
  intros [H6 H18]. apply IZR_le in H6, H18. pose proof PI_RGT_0.
  unfold diurnal_temp.
  assert (0 <= sin ((IZR h - 6) * PI / 12)) by (apply sin_ge_0; nra).
  lra.
Qed.

(** X22. The outdoor temperature a step pushes to the cooling model lies
    between 5 and 25 degrees; it is at most 15 degrees when the hour of the
    orchestrator's clock is between 19:00 and 06:59, at least 15 degrees
    between 06:00 and 18:59, and exactly 25 degrees at hour 12. *)
Theorem step_outdoor_temp_range (u : R) (o : t) :
  let temp := CoolingModel.outdoor_temp (cooling (fst (step u o))) in
  let h := hour_of (current_time o) in
  5 <= temp <= 25
  /\ ((h <= 6)%Z \/ (19 <= h)%Z -> temp <= 15)
  /\ ((6 <= h <= 18)%Z -> 15 <= temp)
  /\ (h = 12%Z -> temp = 25).
Proof.
  cbn zeta. destruct (step_outdoor_temp u o) as [T _]. rewrite T.
  pose proof (hour_of_range (current_time o)) as Hh.
  split; [ apply diurnal_temp_range | ].
  split; [ intros H; apply diurnal_temp_night; lia | ].
  split; [ apply diurnal_temp_day | ].
  intros ->. unfold diurnal_temp.
  replace ((12 - 6) * PI / 12) with (PI / 2) by lra.
  rewrite sin_PI2. lra.
Qed.

Lemma step_outdoor_temp_range_witness :
  CoolingModel.outdoor_temp
    (cooling (fst (step 0 (init (create_default_config 0 0) 0 0)))) <= 15.
Proof.
  apply (step_outdoor_temp_range 0 (init (create_default_config 0 0) 0 0)).
  left. change (hour_of (current_time
                           (init (create_default_config 0 0) 0 0))) with 0%Z.
  lia.
Defined.

End StepPhysics.

Section NightSteps.

Import DataCenterOptimizer.

Lemma renewable_at_night (h : Z) :
  (0 <= h <= 6)%Z \/ (18 <= h < 24)%Z ->
  GridSignalMonitor.at_hour GridSignalMonitor._generate_renewable_profile h
  <= 0.24.
Proof.
  intros H. unfold GridSignalMonitor._generate_renewable_profile.
  rewrite at_hour_hours by lia. rewrite solar_night by exact H.
  pose proof (SIN_bound (IZR h * PI / 12 + PI)) as Hb.
  rewrite np_clip_id by lra. lra.
Qed.

(** X23. On a constructed grid monitor, a step whose grid state falls
    between 19:00 and 06:59 sees a renewable fraction below 0.24;
    with a controller whose high threshold is above 0.24 and whose low
    threshold is at least 0.24 (the defaults are 0.6 and 0.3), a
    non-negative rate and a flex level of at most 1, such a step lowers the
    flex level by the rate, floored at 0.1, whatever the stress is. *)
Theorem step_night_reduces_flex (u : R) (o : t) :
  let h := hour_of (GridSignalMonitor.current_time (grid o) + timestep o) in
  let rate := SimpleController.adjustment_rate (controller o) in
  GridSignalMonitor.renewable_profile (grid o)
  = GridSignalMonitor._generate_renewable_profile ->
  (h <= 6)%Z \/ (19 <= h)%Z ->
  0.24 < SimpleController.renewable_threshold_high (controller o) ->
  0.24 <= SimpleController.renewable_threshold_low (controller o) ->
  0 <= rate ->
  ITLoadModel.flex_workload (it_load o) <= 1 ->
  ITLoadModel.total_capacity_kw (it_load o) <> 0 ->
  ITLoadModel.flex_workload (it_load (fst (step u o)))
  = Rmax 0.1 (ITLoadModel.flex_workload (it_load o) - rate).
Proof.
  intros h rate Hprof Hnight Hhigh Hlow Hrate Hflex Hcap.
  pose proof (hour_of_range (GridSignalMonitor.current_time (grid o)
                             + timestep o)) as Hh.
  fold h in Hh.
  rewrite step_unfold.
  match goal with
  | |- context [step_from ?g ?a] =>
      pose proof (step_from_flex g a) as F;
      destruct (get_system_state_ok (fst (inject_outdoor_temp a g)) Hcap)
        as [sys Hsys]
  end.
  cbn zeta in F. rewrite Hsys in F. rewrite F.
  pose proof (get_system_state_flex _ _ Hsys) as Hsnap.
  cbn [fst inject_outdoor_temp it_load] in Hsnap.
  rewrite compute_control_flex_cases, Hsnap.
  cbn [fst snd inject_outdoor_temp controller GridSignalMonitor.renewable_pct
       GridSignalMonitor.set_outdoor_temp_c GridSignalMonitor.update
       GridSignalMonitor.get_current_state GridSignalMonitor.get_hour_of_day
       GridSignalMonitor.set_current_time GridSignalMonitor.current_time get
       GridSignalMonitor.renewable_profile GridSignalMonitor.grid_stress].
  change (GridSignalMonitor.get_hour_of_day
            (GridSignalMonitor.set_current_time (grid o)
               (GridSignalMonitor.current_time (grid o) + timestep o)) None)
    with h.
  rewrite Hprof.
  assert (Hn : (0 <= h <= 6)%Z \/ (18 <= h < 24)%Z) by lia.
  pose proof (renewable_at_night h Hn) as Hb.
  set (ren := GridSignalMonitor.at_hour _ h) in *. clearbody ren.
  assert (E1 : Rgeb ren (SimpleController.renewable_threshold_high (controller o))
               = false).
  { unfold Rgeb. destruct (Rge_dec _ _); [ lra | reflexivity ]. }
  assert (E2 : Rleb ren (SimpleController.renewable_threshold_low (controller o))
               = true).
  { unfold Rleb. destruct (Rle_dec _ _); [ reflexivity | lra ]. }
  rewrite E1, E2. cbn [andb orb].
  fold rate. apply np_clip_id.
  unfold Rmax. destruct (Rle_dec 0.1 _); lra.
Qed.

Lemma step_night_reduces_flex_witness :
  let o := init (create_default_config 0 0) 0 0 in
  ITLoadModel.flex_workload (it_load (fst (step 0 o))) = Rmax 0.1 (0.3 - 0.2).
Proof.
  intros o.
  apply (step_night_reduces_flex 0 o); try (cbn; lra).
  - reflexivity.
  - left. change (hour_of (GridSignalMonitor.current_time (grid o) + timestep o))
      with 0%Z. lia.
Defined.

End NightSteps.

(** ** Orchestrator: invariants of the history *)

Section HistoryInvariants.

Import DataCenterOptimizer.

Lemma nth_snoc_lt {A : Type} (l : list A) (x d : A) (i k : nat) :
  length l = k -> (i < k)%nat -> nth i (l ++ [x]) d = nth i l d.
Proof. intros H Hi. apply app_nth1. lia. Qed.

Lemma nth_snoc_at {A : Type} (l : list A) (x d : A) (k : nat) :
  length l = k -> nth k (l ++ [x]) d = x.
Proof. intros <-. apply nth_middle. Qed.

(** Rows stay consistent when a consistent row is appended. *)
Lemma row_consistent_record
    (ts : Z) (h : history_t) (k i : nat) (time : Z) (it cool flex : R)
    (gs : GridSignalMonitor.state) (mode : CoolingModel.mode) :
  history_length h k ->
  (forall j, (j < k)%nat -> row_consistent ts h j) ->
  (i < S k)%nat ->
  row_consistent ts
    (record_metrics h time it cool (it + cool) (CoolingModel.compute_pue it cool)
       0.7 flex gs mode
       ((it + cool) * (IZR ts / 3600.0) * GridSignalMonitor.price_per_kwh gs)
       ((it + cool) * (IZR ts / 3600.0)
        * GridSignalMonitor.carbon_intensity_gco2_kwh gs))
    i.
Proof.
  intros L Hrows Hi.
  destruct L as (L1 & L2 & L3 & L4 & L5 & L6 & L7 & L8 & L9 & L10 & L11
                 & L12 & L13 & L14).
  unfold row_consistent, record_metrics.
  cbn [h_time h_it_power_kw h_cooling_power_kw h_total_power_kw h_pue
       h_base_workload h_price_per_kwh h_carbon_intensity h_total_cost
       h_total_carbon].
  destruct (Nat.eq_dec i k) as [-> | Hne].
  - rewrite !nth_snoc_at by assumption.
    repeat split; try reflexivity; f_equal; f_equal; lra.
  - assert (Hlt : (i < k)%nat) by lia.
    rewrite !(nth_snoc_lt _ _ _ i k) by assumption.
    apply Hrows. exact Hlt.
Qed.

(** The invariant kept by every step, whatever the grid signals are. *)
Lemma reachable_rows (o0 o : t) :
  reachable o0 o ->
  history o0 = empty_history ->
  timestep o = timestep o0
  /\ exists k : nat,
       history_length (history o) k
       /\ current_time o = (current_time o0 + Z.of_nat k * timestep o0)%Z
       /\ (forall i, (i < k)%nat -> row_consistent (timestep o0) (history o) i)
       /\ (forall i, (i < k)%nat ->
                     nth i (h_time (history o)) 0%Z
                     = (current_time o0 + Z.of_nat i * timestep o0)%Z).
Proof.
  intros Hreach H0.
  induction Hreach as [ | o g _ IH | o gs _ IH ].
  - split; [ reflexivity | ]. exists 0%nat. rewrite H0.
    split; [ apply history_length_empty | ].
    split; [ lia | ]. split; intros; lia.
  - exact IH.
  - destruct IH as (Hts & k & L & T & Rows & Times).
    destruct (step_from_frame gs o) as (_ & F2 & _).
    split; [ now rewrite F2 | ].
    destruct (Req_dec_T (ITLoadModel.total_capacity_kw (it_load o)) 0)
      as [Hz | Hnz].
    + destruct (step_from_raise gs o Hz) as (_ & Rh & Rt & _).
      exists k. rewrite Rh, Rt. auto.
    + destruct (step_from_record gs o Hnz)
        as (it & cool & _ & _ & _ & _ & _ & _ & R7 & _).
      destruct (step_from_ok gs o Hnz) as (_ & S2 & _ & S4 & S5 & _).
      exists (S k).
      split; [ apply history_length_appended with (h := history o);
               assumption | ].
      split; [ rewrite S2, T, Hts; lia | ].
      split.
      * intros i Hi. rewrite R7, Hts.
        apply (row_consistent_record (timestep o0) (history o) k i
                 (current_time o) it cool
                 (ITLoadModel.flex_workload (it_load (fst (step_from gs o))))
                 (GridSignalMonitor.set_outdoor_temp_c gs
                    (diurnal_temp (hour_of (current_time o)))));
          assumption.
      * intros i Hi. rewrite S5.
        destruct L as (L1 & _).
        destruct (Nat.eq_dec i k) as [-> | Hne].
        -- rewrite nth_snoc_at by assumption. exact T.
        -- rewrite (nth_snoc_lt _ _ _ i k) by (assumption || lia).
           apply Times. lia.
Qed.

(** X24. In every state a freshly constructed orchestrator can reach, all
    fourteen series have the same length [k], the clock is the start time
    plus [k] steps, the time recorded at position [i] is the start time
    plus [i] steps, and every record is consistent: total power is IT plus
    cooling power, PUE is [compute_pue] of the two, cost and carbon are
    total power times [timestep / 3600] times the recorded price and
    carbon intensity, and the base workload is 0.7. *)
Theorem history_rows_consistent
    (cfg : Config.t) (now_grid now : Z) (o : t) :
  let o0 := init cfg now_grid now in
  reachable o0 o ->
  exists k : nat,
    history_length (history o) k
    /\ current_time o = (current_time o0 + Z.of_nat k * timestep o0)%Z
    /\ (forall i, (i < k)%nat ->
                  row_consistent (timestep o0) (history o) i
                  /\ nth i (h_time (history o)) 0%Z
                     = (current_time o0 + Z.of_nat i * timestep o0)%Z).
Proof.
  intros o0 Hreach.
  destruct (reachable_rows o0 o Hreach eq_refl) as (_ & k & L & T & Rows & Times).
  exists k. split; [ exact L | ]. split; [ exact T | ].
  intros i Hi. split; [ now apply Rows | now apply Times ].
Qed.

Lemma history_rows_consistent_witness :
  let o0 := init (create_default_config 0 0) 0 0 in
  exists k : nat,
    history_length (history (fst (step 0 o0))) k
    /\ current_time (fst (step 0 o0)) = (0 + Z.of_nat k * 300)%Z.
Proof.
  intros o0.
  destruct (history_rows_consistent (create_default_config 0 0) 0 0
              (fst (step 0 o0))) as (k & L & T & _).
  - apply step_reachable. apply reachable_init.
  - exists k. split; [ exact L | exact T ].
Defined.

End HistoryInvariants.

Section HistoryBounds.

Import DataCenterOptimizer.

Lemma step_from_cooling_params (gs : GridSignalMonitor.state) (o : t) :
  CoolingModel.chiller_cop (cooling (fst (step_from gs o)))
  = CoolingModel.chiller_cop (cooling o)
  /\ CoolingModel.fan_pump_overhead (cooling (fst (step_from gs o)))
     = CoolingModel.fan_pump_overhead (cooling o).
Proof.
  unfold step_from, inject_outdoor_temp.
  cbn [fst snd controller config it_load cooling grid timestep current_time
       history].
  destruct (get_system_state _) as [sys | e]; [ | cbn; auto ].
  destruct (SimpleController.compute_control _ sys _) as [ctl c].
  unfold apply_control, ITLoadModel.update.
  destruct (ITLoadModel.compute_power _); cbn; auto.
Qed.

Lemma reachable_cooling_params (o0 o : t) :
  reachable o0 o ->
  CoolingModel.chiller_cop (cooling o) = CoolingModel.chiller_cop (cooling o0)
  /\ CoolingModel.fan_pump_overhead (cooling o)
     = CoolingModel.fan_pump_overhead (cooling o0).
Proof.
  intros Hreach. induction Hreach as [ | o g _ IH | o gs _ IH ].
  - auto.
  - exact IH.
  - destruct (step_from_cooling_params gs o) as [E1 E2].
    rewrite E1, E2. exact IH.
Qed.

(** The PUE of a step is at least 1 when the cooling parameters are sane. *)
Lemma step_pue_ge_1 (cm : CoolingModel.t) (it : R) (mode : CoolingModel.mode) :
  0 < CoolingModel.chiller_cop cm -> 0 <= CoolingModel.fan_pump_overhead cm ->
  CoolingModel.compute_pue it
    (CoolingModel.compute_cooling_power cm (it * 3412.14) (Some mode)) >= 1.
Proof.
  intros Hc Ho. destruct (Rle_dec it 0) as [Hit | Hit].
  - rewrite compute_pue_nonpositive by exact Hit. lra.
  - apply compute_pue_ge_1. apply cooling_power_nonneg; lra.
Qed.

(** X25. In every state a freshly constructed orchestrator can reach, with
    a non-negative adjustment rate, a positive chiller COP and a
    non-negative fan overhead: every recorded PUE is at least 1, every
    recorded flexible workload lies within [0.1, 1], and every recorded
    base workload is 0.7. *)
Theorem reachable_history_bounds
    (cfg : Config.t) (now_grid now : Z) (o : t) :
  let o0 := init cfg now_grid now in
  0 <= SimpleController.adjustment_rate (controller o0) ->
  0 < CoolingModel.chiller_cop (cooling o0) ->
  0 <= CoolingModel.fan_pump_overhead (cooling o0) ->
  reachable o0 o ->
  Forall (fun pue => pue >= 1) (h_pue (history o))
  /\ Forall (fun flex => 0.1 <= flex <= 1) (h_flex_workload (history o))
  /\ Forall (fun base => base = 0.7) (h_base_workload (history o)).
Proof.
  intros o0 Hrate Hcop Hov Hreach.
  assert (H0 : 0.1 <= ITLoadModel.flex_workload (it_load o0) <= 1)
    by (cbn; lra).
  induction Hreach as [ | o g _ IH | o gs Hr IH ].
  - cbn. repeat split; constructor.
  - exact IH.
  - destruct (Req_dec_T (ITLoadModel.total_capacity_kw (it_load o)) 0)
      as [Hz | Hnz].
    + destruct (step_from_raise gs o Hz) as (_ & Rh & _). rewrite Rh. exact IH.
    + destruct (step_from_record gs o Hnz)
        as (it & cool & _ & _ & _ & R4 & _ & _ & R7 & _).
      destruct (reachable_cooling_params o0 o Hr) as [C1 C2].
      destruct (reachable_flex o0 _ (reachable_step o0 o gs Hr) Hrate H0)
        as [Hflex _].
      destruct IH as (I1 & I2 & I3).
      rewrite R7. unfold record_metrics.
      cbn [h_pue h_flex_workload h_base_workload].
      split; [ | split ]; apply Forall_app; (split; [ assumption | ]);
        apply Forall_cons; try apply Forall_nil.
      * rewrite R4. apply step_pue_ge_1.
        -- cbn. rewrite C1. exact Hcop.
        -- cbn. rewrite C2. exact Hov.
      * exact Hflex.
      * reflexivity.
Qed.

Lemma reachable_history_bounds_witness :
  let o0 := init (create_default_config 0 0) 0 0 in
  Forall (fun pue => pue >= 1) (h_pue (history (fst (step 0 o0)))).
Proof.
  intros o0.
  apply (reachable_history_bounds (create_default_config 0 0) 0 0
           (fst (step 0 o0))); try (cbn; lra).
  apply step_reachable. apply reachable_init.
Defined.

Lemma step_grid_clock (u : R) (o : t) :
  GridSignalMonitor.current_time (grid (fst (step u o)))
  = (GridSignalMonitor.current_time (grid o) + timestep o)%Z.
Proof.
  rewrite step_unfold.
  match goal with
  | |- context [step_from ?g ?a] =>
      destruct (step_from_frame g a) as (_ & _ & _ & _ & _ & _ & _ & _ & F9)
  end.
  rewrite F9. reflexivity.
Qed.

(** X26. In a state reached by a freshly constructed orchestrator whose
    IT load has a zero total capacity, [step] raises [ZeroDivisionError]
    while it takes the snapshot: nothing is appended to the history and the
    orchestrator's clock, the IT load, the controller and the cooling mode
    are untouched, but the grid monitor's clock has already advanced by one
    step and the cooling model already holds the new outdoor temperature. *)
Theorem step_zero_capacity_effects
    (cfg : Config.t) (now_grid now : Z) (u : R) (o : t) :
  reachable (init cfg now_grid now) o ->
  ITLoadModel.total_capacity_kw (it_load o) = 0 ->
  let o' := fst (step u o) in
  snd (step u o) = Raise ZeroDivisionError
  /\ history o' = history o
  /\ current_time o' = current_time o
  /\ it_load o' = it_load o
  /\ controller o' = controller o
  /\ GridSignalMonitor.current_time (grid o')
     = (GridSignalMonitor.current_time (grid o) + timestep o)%Z
  /\ CoolingModel.outdoor_temp (cooling o')
     = diurnal_temp (hour_of (current_time o))
  /\ CoolingModel.current_mode (cooling o') = CoolingModel.current_mode (cooling o).
Proof.
  intros _ Hz. cbn zeta.
  split; [ | split; [ | split; [ | split; [ | split; [ | split; [ | split ] ] ] ] ] ].
  6: apply step_grid_clock.
  6: apply step_outdoor_temp.
  all: rewrite step_unfold; unfold step_from, inject_outdoor_temp;
    rewrite get_system_state_raise by exact Hz; reflexivity.
Qed.

Lemma step_zero_capacity_effects_witness :
  let cfg :=
    {| Config.it_load := Some (Config.mk_it_load (Some 0) (Some 0) None None None);
       Config.cooling := None;
       Config.grid := None;
       Config.controller := None;
       Config.timestep_seconds := None;
       Config.start_time := None |} in
  snd (step 0 (init cfg 0 0)) = Raise ZeroDivisionError.
Proof.
  intros cfg.
  apply (step_zero_capacity_effects cfg 0 0 0 (init cfg 0 0)).
  - apply reachable_init.
  - cbn. lra.
Defined.

End HistoryBounds.

(** ** Orchestrator: complete runs and summaries *)

Section RunMore.

Import DataCenterOptimizer.

Lemma run_fst (uniform : nat -> R) (o : t) (d : R) (N : Z) :
  num_steps o d = Ok N ->
  fst (run uniform o d) = fst (run_loop uniform 0 (Z.to_nat N) o).
Proof.
  intros H. unfold run. rewrite H.
  destruct (run_loop uniform 0 (Z.to_nat N) o) as [o' [r | e]]; reflexivity.
Qed.

(** The grid monitor's clock advances with every iteration of the loop. *)
Lemma run_loop_grid_clock (uniform : nat -> R) (n i : nat) (o : t) :
  ITLoadModel.total_capacity_kw (it_load o) <> 0 ->
  (0 < timestep o <= 3600)%Z ->
  GridSignalMonitor.current_time (grid (fst (run_loop uniform i n o)))
  = (GridSignalMonitor.current_time (grid o) + Z.of_nat n * timestep o)%Z.
Proof.
  revert i o. induction n as [ | n IH ]; intros i o Hcap Hts; cbn [run_loop].
  - cbn [fst]. lia.
  - destruct (step_ok (uniform i) o Hcap) as ([m Hm] & S2 & S3 & _).
    pose proof (step_grid_clock (uniform i) o) as G.
    destruct (step (uniform i) o) as [o1 r]. cbn [fst snd] in *. subst r.
    destruct (progress_condition_ok i (timestep o1)) as [q ->];
      [ rewrite S2; exact Hts | ].
    rewrite IH by (rewrite ?S2, ?S3; assumption).
    rewrite G, S2. lia.
Qed.

Lemma reachable_config (o0 o : t) : reachable o0 o -> config o = config o0.
Proof.
  intros Hreach. induction Hreach as [ | o g _ IH | o gs _ IH ].
  - reflexivity.
  - exact IH.
  - destruct (step_from_frame gs o) as (E & _). now rewrite E.
Qed.

Lemma get_results_fields (o : t) (res : results) :
  get_results o = Ok res ->
  r_history res = history o /\ r_config res = config o.
Proof.
  unfold get_results.
  destruct (np_min _); [ | discriminate ].
  destruct (np_max _); [ | discriminate ].
  intros E. injection E as <-. auto.
Qed.

(** X27. On a freshly constructed orchestrator with a non-zero total
    capacity and a step of at most one hour, the loop of [run] entered for
    [n >= 1] iterations performs them all without raising: every series
    has [n] entries, the orchestrator's clock and the grid monitor's clock
    have both advanced by [n] steps, and [get_results] then returns a
    dictionary whose history is the orchestrator's and whose configuration
    is the one given. *)
Theorem run_loop_completes
    (uniform : nat -> R) (cfg : Config.t) (now_grid now : Z) (n : nat) :
  let o := init cfg now_grid now in
  let o' := fst (run_loop uniform 0 n o) in
  ITLoadModel.total_capacity_kw (it_load o) <> 0 ->
  (0 < timestep o <= 3600)%Z ->
  (1 <= n)%nat ->
  snd (run_loop uniform 0 n o) = Ok tt
  /\ history_length (history o') n
  /\ current_time o' = (current_time o + Z.of_nat n * timestep o)%Z
  /\ GridSignalMonitor.current_time (grid o')
     = (GridSignalMonitor.current_time (grid o) + Z.of_nat n * timestep o)%Z
  /\ exists res : results,
       get_results o' = Ok res
       /\ r_history res = history o'
       /\ r_config res = cfg.
Proof.
  intros o o' Hcap Hts Hn.
  destruct (run_loop_ok uniform n 0 0 o Hcap Hts history_length_empty)
    as (L1 & L2 & L3 & _).
  fold o' in L2, L3. cbn [Nat.add] in L2.
  split; [ exact L1 | ]. split; [ exact L2 | ]. split; [ exact L3 | ].
  split; [ apply run_loop_grid_clock; assumption | ].
  assert (Hne : h_pue (history o') <> []).
  { destruct L2 as (_ & _ & _ & _ & L5 & _). intros E. rewrite E in L5.
    cbn in L5. lia. }
  destruct (get_results_ok _ Hne) as [res Hr].
  destruct (get_results_fields _ _ Hr) as [F1 F2].
  exists res. split; [ exact Hr | ]. split; [ exact F1 | ].
  rewrite F2. apply (reachable_config o).
  apply run_loop_reachable. apply reachable_init.
Qed.

Lemma run_loop_completes_witness :
  let o := init (create_default_config 0 0) 0 0 in
  let o' := fst (run_loop (fun _ => 0) 0 12 o) in
  history_length (history o') 12
  /\ exists res : results, get_results o' = Ok res.
Proof.
  intros o o'.
  destruct (run_loop_completes (fun _ => 0) (create_default_config 0 0) 0 0 12)
    as (_ & L & _ & _ & res & Hres & _).
  - cbn. lra.
  - cbn. lia.
  - lia.
  - split; [ exact L | ]. exists res. exact Hres.
Defined.




Lemma fold_min_spec (l : list R) (x : R) :
  fold_left Rmin l x <= x
  /\ Forall (fun p => fold_left Rmin l x <= p) l
  /\ In (fold_left Rmin l x) (x :: l).
Proof.
  revert x. induction l as [ | y l IH ]; intros x; cbn [fold_left].
  - split; [ lra | ]. split; [ constructor | left; reflexivity ].
  - destruct (IH (Rmin x y)) as (I1 & I2 & I3).
    pose proof (Rmin_l x y). pose proof (Rmin_r x y).
    split; [ lra | ]. split.
    + constructor; [ lra | exact I2 ].
    + destruct I3 as [I3 | I3].
      * rewrite <- I3. unfold Rmin. destruct (Rle_dec x y);
          [ left | right; left ]; reflexivity.
      * right. right. exact I3.
Qed.

Lemma fold_max_spec (l : list R) (x : R) :
  x <= fold_left Rmax l x
  /\ Forall (fun p => p <= fold_left Rmax l x) l
  /\ In (fold_left Rmax l x) (x :: l).
Proof.
  revert x. induction l as [ | y l IH ]; intros x; cbn [fold_left].
  - split; [ lra | ]. split; [ constructor | left; reflexivity ].
  - destruct (IH (Rmax x y)) as (I1 & I2 & I3).
    pose proof (Rmax_l x y). pose proof (Rmax_r x y).
    split; [ lra | ]. split.
    + constructor; [ lra | exact I2 ].
    + destruct I3 as [I3 | I3].
      * rewrite <- I3. unfold Rmax. destruct (Rle_dec x y);
          [ right; left | left ]; reflexivity.
      * right. right. exact I3.
Qed.

(** X29. [get_results] raises [ValueError] exactly when the PUE series is
    empty. When it returns, the minimum and the maximum PUE are entries of
    the series that bound every entry, the average PUE is the sum of the
    series over its length, the total cost is the sum of the cost series,
    the total carbon in kilograms is the sum of the carbon series over
    1000, and history and configuration are handed back as they are. *)
Theorem get_results_summary (o : t) :
  (get_results o = Raise ValueError <-> h_pue (history o) = [])
  /\ (forall res : results,
        get_results o = Ok res ->
        let s := r_summary res in
        let pue := h_pue (history o) in
        Forall (fun p => min_pue s <= p <= max_pue s) pue
        /\ In (min_pue s) pue /\ In (max_pue s) pue
        /\ avg_pue s = Fin (py_sum pue / INR (length pue))
        /\ total_cost_usd s = py_sum (h_total_cost (history o))
        /\ total_carbon_kg s * 1000 = py_sum (h_total_carbon (history o))
        /\ r_history res = history o
        /\ r_config res = config o).
Proof.
  unfold get_results.
  destruct (h_pue (history o)) as [ | x l ] eqn:E.
  - cbn. split; [ split; reflexivity | ]. intros res H. discriminate.
  - cbn [np_min np_max].
    split; [ split; intros H; discriminate | ].
    intros res H. injection H as <-. cbn.
    destruct (fold_min_spec l x) as (N1 & N2 & N3).
    destruct (fold_max_spec l x) as (X1 & X2 & X3).
    split.
    { constructor; [ lra | ].
      apply Forall_forall. intros p Hp.
      rewrite Forall_forall in N2, X2.
      specialize (N2 p Hp). specialize (X2 p Hp). lra. }
    split; [ exact N3 | ]. split; [ exact X3 | ].
    split; [ reflexivity | ]. split; [ reflexivity | ].
    split; [ lra | ]. split; reflexivity.
Qed.

Lemma get_results_summary_witness :
  get_results (init (create_default_config 0 0) 0 0) = Raise ValueError.
Proof.
  apply (proj1 (get_results_summary (init (create_default_config 0 0) 0 0))).
  reflexivity.
Defined.

End RunMore.
